(** * The portable recursive lock of lib/lock/ulInt.h

    A shallow embedding of the [MXRecLock] primitives of open-vm-tools
    (lib/lock/ulInt.h) and of the acquisition statistics declared there,
    followed by the properties of the lock core.

    The embedding is the view of ONE calling thread: every operation takes
    the identity [self] that [pthread_self()] / [GetCurrentThreadId()]
    would return, and runs against the lock structure as that thread
    sees it.  The native mutex is an interface ([NativeMutex]); what other
    threads do to the structure between two calls is not part of the
    model.  What they have written into it by the time a native
    acquisition of the caller returns is a parameter ([OtherThreads]) of
    the acquisition among other threads, [MXRecLockAcquire_shared]. *)

From Stdlib Require Import String ZArith List Bool Lia.
Import ListNotations.
Local Open Scope Z_scope.

(* ================================================================== *)
(** ** C integers *)

(** Conversion to [uint32] (what the return type of [MXRecLockCount]
    does to the [int] field). *)
Definition to_uint32 (z : Z) : Z := z mod 2 ^ 32.

(** Conversion of an unsigned 32-bit result back to [int] (what storing
    into [lock->referenceCount] does after [+=] or [-=] with a [uint32]
    operand). *)
Definition to_int (z : Z) : Z := (z + 2 ^ 31) mod 2 ^ 32 - 2 ^ 31.

(** Conversion to [uint64], the type of the statistics counters. *)
Definition to_uint64 (z : Z) : Z := z mod 2 ^ 64.

(* ================================================================== *)
(** ** Constants and parameters *)

(** [#define MXUSER_STAT_CLASS_ACQUISITION "a"] *)
Definition MXUSER_STAT_CLASS_ACQUISITION : String.string := "a"%string.

(** [#define MXUSER_MAX_REC_DEPTH 16] *)
Definition MXUSER_MAX_REC_DEPTH : Z := 16.

(** [EBUSY] of <errno.h>. *)
Definition EBUSY : Z := 16.

(** [vmx86_debug] comes from a header that is not part of the lock
    sources; it is a parameter of the build. *)
Class Build := { vmx86_debug : bool }.

(** [typedef pthread_t MXThreadID] / [typedef DWORD MXThreadID]: an
    integer of [sizeof_MXThreadID] bytes. *)
Definition MXThreadID := Z.

(** The native lock object and the five calls the environment specific
    primitives are made of ([pthread_mutex_init], [pthread_mutex_destroy],
    [pthread_mutex_lock], [pthread_mutex_trylock], [pthread_mutex_unlock];
    on Windows the critical section calls).  Each call gets the native
    lock object, returns an error code (0 for success) and the native
    lock object it leaves behind; the three locking calls also depend on
    the calling thread. *)
Class NativeMutex := {
  NativeLock : Type;
  sizeof_MXThreadID : Z;
  mutex_init : NativeLock -> Z * NativeLock;
  mutex_destroy : NativeLock -> Z * NativeLock;
  mutex_lock : MXThreadID -> NativeLock -> Z * NativeLock;
  mutex_trylock : MXThreadID -> NativeLock -> Z * NativeLock;
  mutex_unlock : MXThreadID -> NativeLock -> Z * NativeLock
}.

(** The owner value meaning nobody: every byte of the identity set to
    0xFF ([memset] in the POSIX variant; [MXUSER_INVALID_OWNER],
    0xFFFFFFFF, for the 4-byte [DWORD] of the Windows variant). *)
Definition MXUSER_INVALID_OWNER `{NativeMutex} : MXThreadID :=
  Z.ones (8 * sizeof_MXThreadID).

(* ================================================================== *)
(** ** The lock structure and the calling thread's world *)

Record MXRecLock `{NativeMutex} := mkMXRecLock {
  nativeLock : NativeLock;        (* Native lock object *)
  referenceCount : Z;             (* Acquisition count (a C int) *)
  nativeThreadID : MXThreadID     (* Native thread ID *)
}.
Arguments mkMXRecLock {_} _ _ _.

Definition set_nativeLock `{NativeMutex} (n : NativeLock) (l : MXRecLock) :=
  mkMXRecLock n (referenceCount l) (nativeThreadID l).
Definition set_referenceCount `{NativeMutex} (c : Z) (l : MXRecLock) :=
  mkMXRecLock (nativeLock l) c (nativeThreadID l).
Definition set_nativeThreadID `{NativeMutex} (t : MXThreadID) (l : MXRecLock) :=
  mkMXRecLock (nativeLock l) (referenceCount l) t.

(** The calls made to the native mutex, in the order they were made. *)
Inductive NativeCall :=
| CallCreate | CallDestroy | CallAcquire | CallTryAcquire | CallRelease.

Record World `{NativeMutex} := mkWorld {
  lock : MXRecLock;
  calls : list NativeCall
}.
Arguments mkWorld {_} _ _.

(** How a call ends: it returns, or the process is terminated by
    [Panic] or by a failed [ASSERT].  Either way the lock structure is
    left as it was at that point. *)
Inductive Failure :=
| Panicked (err : Z)
| AssertFailed.

Inductive Outcome `{NativeMutex} (A : Type) :=
| Done (a : A) (w : World)
| Fatal (f : Failure) (w : World).
Arguments Done {_ A} a w.
Arguments Fatal {_ A} f w.

Definition state_of `{NativeMutex} {A} (o : Outcome A) : World :=
  match o with Done _ w => w | Fatal _ w => w end.

Definition M `{NativeMutex} (A : Type) := World -> Outcome A.

Definition ret `{NativeMutex} {A} (a : A) : M A := fun w => Done a w.

Definition bind `{NativeMutex} {A B} (m : M A) (k : A -> M B) : M B :=
  fun w => match m w with
           | Done a w' => k a w'
           | Fatal f w' => Fatal f w'
           end.

Declare Scope lock_scope.
Delimit Scope lock_scope with lock.
Notation "x <- m ;; k" := (bind m (fun x => k))
  (at level 61, m at next level, right associativity) : lock_scope.
Notation "m ;; k" := (bind m (fun _ => k))
  (at level 61, right associativity) : lock_scope.
Local Open Scope lock_scope.

(** Read and update the lock structure. *)
Definition get `{NativeMutex} : M MXRecLock := fun w => Done (lock w) w.

Definition modify `{NativeMutex} (f : MXRecLock -> MXRecLock) : M unit :=
  fun w => Done tt (mkWorld (f (lock w)) (calls w)).

(** [Panic(...)]. *)
Definition Panic `{NativeMutex} {A} (err : Z) : M A :=
  fun w => Fatal (Panicked err) w.

(** Modelled from the spec: the [ASSERT] macro, whose header is not part
    of the lock sources; an assertion that does not hold is fatal. *)
Definition ASSERT `{NativeMutex} (cond : bool) : M unit :=
  fun w => if cond then Done tt w else Fatal AssertFailed w.

Definition when `{NativeMutex} (cond : bool) (m : M unit) : M unit :=
  if cond then m else ret tt.

(** One call to the native mutex: run it on the native lock object,
    record it, hand back its error code. *)
Definition native_call `{NativeMutex} (c : NativeCall)
    (op : NativeLock -> Z * NativeLock) : M Z :=
  fun w =>
    let r := op (nativeLock (lock w)) in
    Done (fst r) (mkWorld (set_nativeLock (snd r) (lock w)) (calls w ++ [c])).

(* ================================================================== *)
(** ** The environment specific primitives *)

Definition MXRecLockCreateInternal `{NativeMutex} : M Z :=
  native_call CallCreate mutex_init.

Definition MXRecLockDestroyInternal `{NativeMutex} : M Z :=
  native_call CallDestroy mutex_destroy.

Definition MXRecLockIsOwner `{NativeMutex}
    (self : MXThreadID) (l : MXRecLock) : bool :=
  nativeThreadID l =? self.

Definition MXRecLockSetNoOwner `{NativeMutex} (l : MXRecLock) : MXRecLock :=
  set_nativeThreadID MXUSER_INVALID_OWNER l.

Definition MXRecLockSetOwner `{NativeMutex}
    (self : MXThreadID) (l : MXRecLock) : MXRecLock :=
  set_nativeThreadID self l.

Definition MXRecLockAcquireInternal `{NativeMutex} (self : MXThreadID) : M Z :=
  native_call CallAcquire (mutex_lock self).

Definition MXRecLockTryAcquireInternal `{NativeMutex} (self : MXThreadID) : M Z :=
  native_call CallTryAcquire (mutex_trylock self).

Definition MXRecLockReleaseInternal `{NativeMutex} (self : MXThreadID) : M Z :=
  native_call CallRelease (mutex_unlock self).

(* ================================================================== *)
(** ** The portable recursive lock *)

Definition MXRecLockInit `{NativeMutex} : M bool :=
  err <- MXRecLockCreateInternal ;;
  let success := err =? 0 in
  when success
    (modify MXRecLockSetNoOwner ;;
     modify (set_referenceCount 0)) ;;
  ret success.

Definition MXRecLockDestroy `{Build} `{NativeMutex} : M unit :=
  err <- MXRecLockDestroyInternal ;;
  when (vmx86_debug && negb (err =? 0)) (Panic err).

Definition MXRecLockCount `{NativeMutex} (l : MXRecLock) : Z :=
  to_uint32 (referenceCount l).

Definition MXRecLockIncCount `{NativeMutex}
    (self : MXThreadID) (count : Z) (l : MXRecLock) : MXRecLock :=
  let l1 := if MXRecLockCount l =? 0 then MXRecLockSetOwner self l else l in
  set_referenceCount
    (to_int (to_uint32 (to_uint32 (referenceCount l1) + count))) l1.

Definition MXRecLockAcquire `{Build} `{NativeMutex}
    (self : MXThreadID) : M bool :=
  l <- get ;;
  contended <-
    (if negb (MXRecLockCount l =? 0) && MXRecLockIsOwner self l then
       ASSERT ((0 <? MXRecLockCount l) &&
               (MXRecLockCount l <? MXUSER_MAX_REC_DEPTH)) ;;
       ret false
     else
       err <- MXRecLockTryAcquireInternal self ;;
       r <- (if err =? 0 then
               ret (err, false)
             else
               when (vmx86_debug && negb (err =? EBUSY)) (Panic err) ;;
               err' <- MXRecLockAcquireInternal self ;;
               ret (err', true)) ;;
       when (vmx86_debug && negb (fst r =? 0)) (Panic (fst r)) ;;
       l' <- get ;;
       ASSERT (referenceCount l' =? 0) ;;
       ret (snd r)) ;;
  modify (MXRecLockIncCount self 1) ;;
  ret contended.

Definition MXRecLockTryAcquire `{Build} `{NativeMutex}
    (self : MXThreadID) : M bool :=
  err <- MXRecLockTryAcquireInternal self ;;
  if err =? 0 then
    modify (MXRecLockIncCount self 1) ;;
    l <- get ;;
    ASSERT ((0 <? MXRecLockCount l) &&
            (MXRecLockCount l <? MXUSER_MAX_REC_DEPTH)) ;;
    ret true
  else
    when (vmx86_debug && negb (err =? EBUSY)) (Panic err) ;;
    ret false.

(** [count] is a [uint32] parameter: whatever is passed is converted on
    the way in. *)
Definition MXRecLockDecCount `{NativeMutex} (count : Z) : M unit :=
  l <- get ;;
  ASSERT (to_uint32 count <=? to_uint32 (referenceCount l)) ;;
  modify (set_referenceCount
            (to_int (to_uint32 (to_uint32 (referenceCount l) -
                                to_uint32 count)))) ;;
  l' <- get ;;
  when (MXRecLockCount l' =? 0) (modify MXRecLockSetNoOwner).

Definition MXRecLockRelease `{Build} `{NativeMutex}
    (self : MXThreadID) : M unit :=
  l <- get ;;
  ASSERT ((0 <? MXRecLockCount l) &&
          (MXRecLockCount l <? MXUSER_MAX_REC_DEPTH)) ;;
  MXRecLockDecCount 1 ;;
  l' <- get ;;
  when (MXRecLockCount l' =? 0)
    (err <- MXRecLockReleaseInternal self ;;
     when (vmx86_debug && negb (err =? 0)) (Panic err)).

(** The end of the native path of [MXRecLockAcquire]: the assertion that
    nobody holds the lock, then the first count. *)
Definition finish_native_acquire `{NativeMutex}
    (self : MXThreadID) (contended : bool) (n : NativeLock) (rc : Z)
    (owner : MXThreadID) (cs : list NativeCall) : Outcome bool :=
  if rc =? 0
  then Done contended (mkWorld (mkMXRecLock n 1 self) cs)
  else Fatal AssertFailed (mkWorld (mkMXRecLock n rc owner) cs).

(** The bound on the acquisition count that the lock is meant to keep. *)
Definition count_in_bound `{NativeMutex} (l : MXRecLock) : Prop :=
  0 <= referenceCount l < MXUSER_MAX_REC_DEPTH.

(** The native results a call is about to see. *)
Definition create_result `{NativeMutex} (w : World) : Z :=
  fst (mutex_init (nativeLock (lock w))).
Definition try_result `{NativeMutex} (self : MXThreadID) (w : World) : Z :=
  fst (mutex_trylock self (nativeLock (lock w))).
Definition release_result `{NativeMutex} (self : MXThreadID) (w : World) : Z :=
  fst (mutex_unlock self (nativeLock (lock w))).
(** The result of the blocking acquire that follows a try. *)
Definition lock_result_after_try `{NativeMutex}
    (self : MXThreadID) (w : World) : Z :=
  fst (mutex_lock self (snd (mutex_trylock self (nativeLock (lock w))))).

(** [n] calls of [MXRecLockAcquire] in a row, with the contended flag of
    each, and [n] calls of [MXRecLockRelease] in a row. *)
Fixpoint acquire_times `{Build} `{NativeMutex}
    (self : MXThreadID) (n : nat) : M (list bool) :=
  match n with
  | O => ret []
  | S k =>
      c <- MXRecLockAcquire self ;;
      cs <- acquire_times self k ;;
      ret (c :: cs)
  end.

Fixpoint release_times `{Build} `{NativeMutex}
    (self : MXThreadID) (n : nat) : M unit :=
  match n with
  | O => ret tt
  | S k => MXRecLockRelease self ;; release_times self k
  end.

(* ================================================================== *)
(** ** A native mutex that replays prescribed results

    The native lock object is the list of error codes its next calls
    return (0 once the list is used up).  It stands for any platform
    mutex whose calls return those codes in that order. *)

Definition replay (script : list Z) : Z * list Z :=
  match script with
  | [] => (0, [])
  | err :: rest => (err, rest)
  end.

Definition Scripted : NativeMutex := {|
  NativeLock := list Z;
  sizeof_MXThreadID := 8;
  mutex_init := replay;
  mutex_destroy := replay;
  mutex_lock := fun _ => replay;
  mutex_trylock := fun _ => replay;
  mutex_unlock := fun _ => replay
|}.

Definition DebugBuild : Build := {| vmx86_debug := true |}.
Definition ReleaseBuild : Build := {| vmx86_debug := false |}.

(** A lock structure before [MXRecLockInit], with whatever its memory
    holds, over the replaying mutex. *)
Definition raw_world (script : list Z) (count : Z) (owner : MXThreadID)
    : @World Scripted :=
  @mkWorld Scripted (@mkMXRecLock Scripted script count owner) [].

(* ================================================================== *)
(** ** Acquisition statistics

    The structures are those of ulInt.h; [MXUserAcquisitionSample],
    [MXUserBasicStatsSample] and the set-up functions are only declared
    there. *)

(** [double] and the one operation the statistics need on it. *)
Class FloatOps := {
  double : Type;
  double_zero : double;
  double_add_square : double -> Z -> double
}.

Record MXUserBasicStats `{FloatOps} := mkBasicStats {
  typeName : String.string;  (* Name *)
  numSamples : Z;            (* Population sample size *)
  minTime : Z;               (* Minimum *)
  maxTime : Z;               (* Maximum *)
  timeSum : Z;               (* Sum of times (for mean) *)
  timeSquaredSum : double    (* Sum of times^2 (for S.D.) *)
}.
Arguments mkBasicStats {_} _ _ _ _ _ _.

Record MXUserAcquisitionStats `{FloatOps} := mkAcquisitionStats {
  numAttempts : Z;
  numSuccesses : Z;
  numSuccessesContended : Z;
  successContentionTime : Z;
  totalContentionTime : Z;
  basicStats : MXUserBasicStats
}.
Arguments mkAcquisitionStats {_} _ _ _ _ _ _.

(** Modelled from the spec: [MXUserBasicStatsSetUp], missing from the
    sources; the structure is zeroed and named. *)
Definition MXUserBasicStatsSetUp `{FloatOps} (name : String.string)
    : MXUserBasicStats :=
  mkBasicStats name 0 0 0 0 double_zero.

(** Modelled from the spec: [MXUserBasicStatsSample], missing from the
    sources; [numSamples += 1; timeSum += v; timeSquaredSum += v*v;
    minTime = min(minTime, v); maxTime = max(maxTime, v)] on [uint64]
    fields. *)
Definition MXUserBasicStatsSample `{FloatOps}
    (stats : MXUserBasicStats) (value : Z) : MXUserBasicStats :=
  mkBasicStats
    (typeName stats)
    (to_uint64 (numSamples stats + 1))
    (Z.min (minTime stats) value)
    (Z.max (maxTime stats) value)
    (to_uint64 (timeSum stats + value))
    (double_add_square (timeSquaredSum stats) value).

(** Modelled from the spec: [MXUserAcquisitionStatsSetUp], missing from
    the sources; the structure is zeroed, its basic statistics set up
    under the acquisition class name. *)
Definition MXUserAcquisitionStatsSetUp `{FloatOps} : MXUserAcquisitionStats :=
  mkAcquisitionStats 0 0 0 0 0
    (MXUserBasicStatsSetUp MXUSER_STAT_CLASS_ACQUISITION).

(** Modelled from the spec: [MXUserAcquisitionSample], missing from the
    sources; it increments [numAttempts]; if acquired, increments
    [numSuccesses] and folds [elapsedTime] into the embedded basic
    statistics; if also contended, increments [numSuccessesContended] and
    adds [elapsedTime] to [successContentionTime]; [totalContentionTime]
    accumulates [elapsedTime] for every attempt.  The fields are
    [uint64]. *)
Definition MXUserAcquisitionSample `{FloatOps}
    (stats : MXUserAcquisitionStats)
    (wasAcquired wasContended : bool) (elapsedTime : Z)
    : MXUserAcquisitionStats :=
  mkAcquisitionStats
    (to_uint64 (numAttempts stats + 1))
    (if wasAcquired then to_uint64 (numSuccesses stats + 1)
     else numSuccesses stats)
    (if wasAcquired && wasContended
     then to_uint64 (numSuccessesContended stats + 1)
     else numSuccessesContended stats)
    (if wasAcquired && wasContended
     then to_uint64 (successContentionTime stats + elapsedTime)
     else successContentionTime stats)
    (to_uint64 (totalContentionTime stats + elapsedTime))
    (if wasAcquired then MXUserBasicStatsSample (basicStats stats) elapsedTime
     else basicStats stats).

(** One acquisition attempt as the sampling call receives it; the
    elapsed time is a [uint64]. *)
Record Sample := mkSample {
  wasAcquired : bool;
  wasContended : bool;
  elapsedTime : Z
}.

Definition sample_all `{FloatOps}
    (stats : MXUserAcquisitionStats) (samples : list Sample)
    : MXUserAcquisitionStats :=
  fold_left
    (fun st s =>
       MXUserAcquisitionSample st (wasAcquired s) (wasContended s)
                               (elapsedTime s))
    samples stats.

Definition is_uint64 (z : Z) : Prop := 0 <= z < 2 ^ 64.

(** Unbounded tallies over a sequence of samples: how many satisfy [p],
    and the sum of the elapsed times of those that do. *)
Fixpoint tally (p : Sample -> bool) (samples : list Sample) : Z :=
  match samples with
  | [] => 0
  | s :: rest => (if p s then 1 else 0) + tally p rest
  end.

Fixpoint elapsed_where (p : Sample -> bool) (samples : list Sample) : Z :=
  match samples with
  | [] => 0
  | s :: rest => (if p s then elapsedTime s else 0) + elapsed_where p rest
  end.

Definition total_elapsed (samples : list Sample) : Z :=
  elapsed_where (fun _ => true) samples.

Definition contended_success (s : Sample) : bool :=
  wasAcquired s && wasContended s.

(** The five counters hold [uint64] values. *)
Definition uint64_counters `{FloatOps} (st : MXUserAcquisitionStats) : Prop :=
  is_uint64 (numAttempts st) /\
  is_uint64 (numSuccesses st) /\
  is_uint64 (numSuccessesContended st) /\
  is_uint64 (successContentionTime st) /\
  is_uint64 (totalContentionTime st).

(** The statistics inequalities of the lock's acquisition counters. *)
Definition stats_conserved `{FloatOps} (st : MXUserAcquisitionStats) : Prop :=
  numAttempts st >= numSuccesses st /\
  numSuccesses st >= numSuccessesContended st /\
  numSuccessesContended st >= 0 /\
  successContentionTime st <= totalContentionTime st.

(** Exact integer arithmetic in the place of [double]. *)
Definition ExactSquares : FloatOps := {|
  double := Z;
  double_zero := 0;
  double_add_square := fun acc v => acc + v * v
|}.

(* ================================================================== *)
(** ** The rest of the lock core *)

(** [MXUserGetNativeTID]: the thread identity converted to [uintptr_t]
    and then to a pointer of [sizeof_voidp] bytes. *)
Definition MXUserGetNativeTID (sizeof_voidp : Z) (self : MXThreadID) : Z :=
  self mod 2 ^ (8 * sizeof_voidp).

(** The values a thread identity of [sizeof_MXThreadID] bytes can take. *)
Definition valid_MXThreadID `{NativeMutex} (t : MXThreadID) : Prop :=
  0 <= t < 2 ^ (8 * sizeof_MXThreadID).

(** The Windows calls behind the [_WIN32] variant of the environment
    specific primitives. *)
Class CriticalSectionAPI := {
  CRITICAL_SECTION : Type;
  InitializeCriticalSectionAndSpinCount :
    CRITICAL_SECTION -> Z -> bool * CRITICAL_SECTION;
  GetLastError : CRITICAL_SECTION -> Z;
  DeleteCriticalSection : CRITICAL_SECTION -> CRITICAL_SECTION;
  EnterCriticalSection : MXThreadID -> CRITICAL_SECTION -> CRITICAL_SECTION;
  TryEnterCriticalSection :
    MXThreadID -> CRITICAL_SECTION -> bool * CRITICAL_SECTION;
  LeaveCriticalSection : MXThreadID -> CRITICAL_SECTION -> CRITICAL_SECTION
}.

(** The [_WIN32] variant: what [MXRecLockCreateInternal],
    [MXRecLockDestroyInternal], [MXRecLockAcquireInternal],
    [MXRecLockTryAcquireInternal] and [MXRecLockReleaseInternal] return
    there, over a [DWORD] thread identity. *)
Definition Win32Mutex `{CriticalSectionAPI} : NativeMutex := {|
  NativeLock := CRITICAL_SECTION;
  sizeof_MXThreadID := 4;
  mutex_init := fun cs =>
    let r := InitializeCriticalSectionAndSpinCount cs 0x80000400 in
    ((if fst r then 0 else GetLastError (snd r)), snd r);
  mutex_destroy := fun cs => (0, DeleteCriticalSection cs);
  mutex_lock := fun self cs => (0, EnterCriticalSection self cs);
  mutex_trylock := fun self cs =>
    let r := TryEnterCriticalSection self cs in
    ((if fst r then 0 else EBUSY), snd r);
  mutex_unlock := fun self cs => (0, LeaveCriticalSection self cs)
|}.

(** Whether a call ended in [Panic]. *)
Definition panicked `{NativeMutex} {A} (o : Outcome A) : bool :=
  match o with
  | Fatal (Panicked _) _ => true
  | _ => false
  end.

(** A call of one of the three locking operations by some thread, and a
    sequence of such calls run one after the other. *)
Inductive LockOp :=
| OpAcquire (self : MXThreadID)
| OpTryAcquire (self : MXThreadID)
| OpRelease (self : MXThreadID).

Definition run_op `{Build} `{NativeMutex} (op : LockOp) : M unit :=
  match op with
  | OpAcquire self => MXRecLockAcquire self ;; ret tt
  | OpTryAcquire self => MXRecLockTryAcquire self ;; ret tt
  | OpRelease self => MXRecLockRelease self
  end.

Fixpoint run_ops `{Build} `{NativeMutex} (ops : list LockOp) : M unit :=
  match ops with
  | [] => ret tt
  | op :: rest => run_op op ;; run_ops rest
  end.

(** What the operations keep between them: the count stays within
    [MXUSER_MAX_REC_DEPTH] inclusive, and a lock with count 0 has no
    owner. *)
Definition lock_consistent `{NativeMutex} (l : MXRecLock) : Prop :=
  0 <= referenceCount l <= MXUSER_MAX_REC_DEPTH /\
  (referenceCount l = 0 -> nativeThreadID l = MXUSER_INVALID_OWNER).

(** The whole life of a lock used by one thread: initialise it and, if
    that worked, take it [n] times, release it [n] times and destroy
    it. *)
Definition lock_lifecycle `{Build} `{NativeMutex}
    (self : MXThreadID) (n : nat) : M unit :=
  ok <- MXRecLockInit ;;
  when ok
    (acquire_times self n ;;
     release_times self n ;;
     MXRecLockDestroy).

(** A native mutex none of whose calls reports an error: the try
    returns success or busy, every other call success. *)
Definition reports_no_error `{NativeMutex} : Prop :=
  (forall n, fst (mutex_init n) = 0) /\
  (forall self n,
     fst (mutex_trylock self n) = 0 \/ fst (mutex_trylock self n) = EBUSY) /\
  (forall self n, fst (mutex_lock self n) = 0) /\
  (forall self n, fst (mutex_unlock self n) = 0) /\
  (forall n, fst (mutex_destroy n) = 0).

(** A native mutex that counts its calls and is busy at every other
    try. *)
Definition Alternating : NativeMutex := {|
  NativeLock := nat;
  sizeof_MXThreadID := 8;
  mutex_init := fun k => (0, S k);
  mutex_destroy := fun k => (0, S k);
  mutex_lock := fun _ k => (0, S k);
  mutex_trylock := fun _ k => ((if Nat.even k then 0 else EBUSY), S k);
  mutex_unlock := fun _ k => (0, S k)
|}.

(* ================================================================== *)
(** ** Acquisition among other threads

    While the caller is inside a native acquisition it does not hold the
    lock, and the threads that do may write [referenceCount] and
    [nativeThreadID].  What the caller reads after the native call is
    then not what it read before it. *)

(** The writes of the other threads: [found self call err fields] is the
    pair ([referenceCount], [nativeThreadID]) the calling thread [self]
    finds in the structure when its native call [call] returns [err],
    [fields] being the pair as it was when the call was made. *)
Class OtherThreads := {
  found : MXThreadID -> NativeCall -> Z -> Z * MXThreadID -> Z * MXThreadID
}.

(** Nobody else writes to the structure. *)
Definition Alone : OtherThreads := {| found := fun _ _ _ fields => fields |}.

(** Whoever held the lock has released it by the time a native
    acquisition succeeds: the caller then finds the count 0 and the
    8-byte no-owner value, as [MXRecLockRelease] leaves them. *)
Definition HolderReleased : OtherThreads := {|
  found := fun _ _ err fields =>
    if err =? 0 then (0, Z.ones 64) else fields
|}.

(** The structure as the caller finds it after a native call. *)
Definition see_others `{NativeMutex} `{OtherThreads}
    (self : MXThreadID) (call : NativeCall) (err : Z) : M unit :=
  modify (fun l =>
            let fields :=
              found self call err (referenceCount l, nativeThreadID l) in
            mkMXRecLock (nativeLock l) (fst fields) (snd fields)).

Definition MXRecLockAcquireInternal_shared `{NativeMutex} `{OtherThreads}
    (self : MXThreadID) : M Z :=
  err <- MXRecLockAcquireInternal self ;;
  see_others self CallAcquire err ;;
  ret err.

Definition MXRecLockTryAcquireInternal_shared `{NativeMutex} `{OtherThreads}
    (self : MXThreadID) : M Z :=
  err <- MXRecLockTryAcquireInternal self ;;
  see_others self CallTryAcquire err ;;
  ret err.

(** The body of [MXRecLockAcquire] over the two native acquisition
    primitives it calls. *)
Definition MXRecLockAcquire_with `{Build} `{NativeMutex}
    (try_acquire acquire : MXThreadID -> M Z)
    (self : MXThreadID) : M bool :=
  l <- get ;;
  contended <-
    (if negb (MXRecLockCount l =? 0) && MXRecLockIsOwner self l then
       ASSERT ((0 <? MXRecLockCount l) &&
               (MXRecLockCount l <? MXUSER_MAX_REC_DEPTH)) ;;
       ret false
     else
       err <- try_acquire self ;;
       r <- (if err =? 0 then
               ret (err, false)
             else
               when (vmx86_debug && negb (err =? EBUSY)) (Panic err) ;;
               err' <- acquire self ;;
               ret (err', true)) ;;
       when (vmx86_debug && negb (fst r =? 0)) (Panic (fst r)) ;;
       l' <- get ;;
       ASSERT (referenceCount l' =? 0) ;;
       ret (snd r)) ;;
  modify (MXRecLockIncCount self 1) ;;
  ret contended.

(** [MXRecLockAcquire] among other threads. *)
Definition MXRecLockAcquire_shared `{Build} `{NativeMutex} `{OtherThreads}
    (self : MXThreadID) : M bool :=
  MXRecLockAcquire_with MXRecLockTryAcquireInternal_shared
                        MXRecLockAcquireInternal_shared self.

(** The pair ([referenceCount], [nativeThreadID]) the caller finds when
    its native try returns, and when the blocking acquire that follows
    the try returns. *)
Definition found_after_try `{NativeMutex} `{OtherThreads}
    (self : MXThreadID) (w : World) : Z * MXThreadID :=
  found self CallTryAcquire (try_result self w)
        (referenceCount (lock w), nativeThreadID (lock w)).

Definition found_after_lock `{NativeMutex} `{OtherThreads}
    (self : MXThreadID) (w : World) : Z * MXThreadID :=
  found self CallAcquire (lock_result_after_try self w)
        (found_after_try self w).

(** Unfolding the monadic code down to its case analysis. *)
Ltac lock_unfold :=
  unfold MXRecLockAcquire, MXRecLockTryAcquire, MXRecLockRelease,
    MXRecLockDecCount, MXRecLockInit, MXRecLockDestroy,
    MXRecLockCreateInternal, MXRecLockDestroyInternal,
    MXRecLockAcquireInternal, MXRecLockTryAcquireInternal,
    MXRecLockReleaseInternal, native_call, create_result, try_result,
    release_result, lock_result_after_try,
    bind, ret, get, modify, when, ASSERT, Panic in *.

(** The same for the acquisition among other threads. *)
Ltac shared_unfold :=
  unfold MXRecLockAcquire_shared, MXRecLockAcquire_with,
    MXRecLockAcquireInternal_shared, MXRecLockTryAcquireInternal_shared,
    see_others, found_after_try, found_after_lock in *.

(* ================================================================== *)
(** * Properties *)

(** ** Integer conversions on small values *)

Lemma to_uint32_small (z : Z) : 0 <= z < 2 ^ 32 -> to_uint32 z = z.
Proof. intros Hz. unfold to_uint32. now apply Z.mod_small. Qed.

Lemma to_int_small (z : Z) : - 2 ^ 31 <= z < 2 ^ 31 -> to_int z = z.
Proof.
  intros Hz. unfold to_int. rewrite Z.mod_small; lia.
Qed.

Lemma to_uint32_range (z : Z) : 0 <= to_uint32 z < 2 ^ 32.
Proof. unfold to_uint32. apply Z.mod_pos_bound. lia. Qed.

Lemma to_uint32_to_int (z : Z) : to_uint32 (to_int z) = to_uint32 z.
Proof.
  unfold to_uint32, to_int.
  rewrite Zminus_mod, Zmod_mod, <- Zminus_mod.
  replace (z + 2 ^ 31 - 2 ^ 31) with z by lia. reflexivity.
Qed.

(** Adding one to a count below the depth bound, as [+=] computes it. *)
Lemma inc_small (c : Z) :
  0 <= c <= MXUSER_MAX_REC_DEPTH ->
  to_int (to_uint32 (to_uint32 c + 1)) = c + 1.
Proof.
  unfold MXUSER_MAX_REC_DEPTH. intros Hc.
  rewrite (to_uint32_small c) by lia.
  rewrite to_uint32_small by lia.
  apply to_int_small. lia.
Qed.

(** Subtracting one from a positive count, as [-=] computes it. *)
Lemma dec_small (c : Z) :
  0 < c <= MXUSER_MAX_REC_DEPTH ->
  to_int (to_uint32 (to_uint32 c - 1)) = c - 1.
Proof.
  unfold MXUSER_MAX_REC_DEPTH. intros Hc.
  rewrite (to_uint32_small c) by lia.
  rewrite to_uint32_small by lia.
  apply to_int_small. lia.
Qed.

Lemma MXRecLockCount_small `{NativeMutex} (l : MXRecLock) :
  0 <= referenceCount l < 2 ^ 32 -> MXRecLockCount l = referenceCount l.
Proof. intros Hc. unfold MXRecLockCount. now apply to_uint32_small. Qed.

Lemma MXRecLockCount_nonneg `{NativeMutex} (l : MXRecLock) :
  0 <= MXRecLockCount l.
Proof. unfold MXRecLockCount. apply to_uint32_range. Qed.

(* ------------------------------------------------------------------ *)
(** ** Initialisation *)

(** C7. [MXRecLockInit] returns success exactly when the native create
    call succeeds (returns 0); on success the owner is the no-owner value
    and [referenceCount] is 0.  The call always returns, having made the
    one native create call. *)
Theorem MXRecLockInit_success `{NativeMutex} (w : World) :
  exists (ok : bool) (w' : World),
    MXRecLockInit w = Done ok w' /\
    (ok = true <-> create_result w = 0) /\
    calls w' = calls w ++ [CallCreate] /\
    (ok = true ->
       nativeThreadID (lock w') = MXUSER_INVALID_OWNER /\
       referenceCount (lock w') = 0).
Proof.
  destruct w as [[n rc owner] cs]. lock_unfold. simpl.
  destruct (mutex_init n) as [err n'] eqn:Hinit. simpl.
  destruct (Z.eqb_spec err 0) as [Herr | Herr]; simpl.
  - eexists true, _. repeat split; auto.
  - eexists false, _. repeat split; auto; discriminate.
Qed.

(** A lock structure holding leftovers, initialised over a mutex whose
    create call succeeds. *)
Example MXRecLockInit_fresh :
  @MXRecLockInit Scripted (raw_world [0] 7 42) =
    Done true (@mkWorld Scripted
                 (@mkMXRecLock Scripted [] 0 (@MXUSER_INVALID_OWNER Scripted))
                 [CallCreate]).
Proof. reflexivity. Qed.

(** C10. When the native create call fails, [MXRecLockInit] returns
    failure and neither [referenceCount] nor the owner identity is
    written: only the native lock object is as the create call left
    it. *)
Theorem MXRecLockInit_failure_frame `{NativeMutex} (w : World) :
  create_result w <> 0 ->
  exists w' : World,
    MXRecLockInit w = Done false w' /\
    referenceCount (lock w') = referenceCount (lock w) /\
    nativeThreadID (lock w') = nativeThreadID (lock w) /\
    nativeLock (lock w') = snd (mutex_init (nativeLock (lock w))).
Proof.
  destruct w as [[n rc owner] cs]. lock_unfold. simpl.
  destruct (mutex_init n) as [err n'] eqn:Hinit. simpl. intros Herr.
  destruct (Z.eqb_spec err 0) as [H0 | H0]; [contradiction |].
  simpl. eexists. repeat split.
Qed.

Lemma MXRecLockInit_failure_frame_witness :
  @create_result Scripted (raw_world [12] 7 42) <> 0 /\
  exists w' : @World Scripted,
    @MXRecLockInit Scripted (raw_world [12] 7 42) = Done false w' /\
    referenceCount (lock w') = 7 /\
    nativeThreadID (lock w') = 42 /\
    nativeLock (lock w') = [].
Proof.
  assert (Hfail : @create_result Scripted (raw_world [12] 7 42) <> 0)
    by (vm_compute; discriminate).
  split; [exact Hfail |].
  exact (@MXRecLockInit_failure_frame Scripted (raw_world [12] 7 42) Hfail).
Defined.

(* ------------------------------------------------------------------ *)
(** ** Release *)

(** What a release does on a lock whose count is within the bound. *)
Lemma MXRecLockRelease_run `{Build} `{NativeMutex}
    (self : MXThreadID) (n : NativeLock) (rc : Z) (owner : MXThreadID)
    (cs : list NativeCall) :
  0 < rc < MXUSER_MAX_REC_DEPTH ->
  MXRecLockRelease self (mkWorld (mkMXRecLock n rc owner) cs) =
    if rc - 1 =? 0 then
      let r := mutex_unlock self n in
      let w' := mkWorld (mkMXRecLock (snd r) (rc - 1) MXUSER_INVALID_OWNER)
                        (cs ++ [CallRelease]) in
      if vmx86_debug && negb (fst r =? 0)
      then Fatal (Panicked (fst r)) w' else Done tt w'
    else Done tt (mkWorld (mkMXRecLock n (rc - 1) owner) cs).
Proof.
  intros Hrc.
  assert (Hmax : MXUSER_MAX_REC_DEPTH = 16) by reflexivity.
  assert (Hcount : to_uint32 rc = rc) by (apply to_uint32_small; lia).
  assert (Hcount' : to_uint32 (rc - 1) = rc - 1)
    by (apply to_uint32_small; lia).
  assert (Hint : to_int (rc - 1) = rc - 1) by (apply to_int_small; lia).
  lock_unfold. unfold MXRecLockCount. simpl.
  rewrite !Hcount.
  replace (0 <? rc) with true by (symmetry; apply Z.ltb_lt; lia).
  replace (rc <? MXUSER_MAX_REC_DEPTH) with true
    by (symmetry; apply Z.ltb_lt; lia).
  simpl. rewrite !Hcount. change (to_uint32 1) with 1.
  replace (1 <=? rc) with true by (symmetry; apply Z.leb_le; lia).
  simpl. rewrite !Hcount', !Hint, !Hcount'.
  destruct (rc - 1 =? 0) eqn:Hz; simpl.
  - rewrite Hcount', Hz. simpl.
    destruct (vmx86_debug && negb (fst (mutex_unlock self n) =? 0));
      reflexivity.
  - rewrite Hcount', Hz. reflexivity.
Qed.

(** C5. A [MXRecLockRelease] call entered with
    [0 < referenceCount < MXUSER_MAX_REC_DEPTH] decrements
    [referenceCount] by exactly one.  When the count reaches 0 the owner
    becomes the no-owner value and the native release is called (once);
    when it stays positive the native mutex is not touched and the owner
    is unchanged.  The call returns, except that in a debug build a
    failing native release ends in [Panic], after those updates. *)
Theorem MXRecLockRelease_decrements `{Build} `{NativeMutex}
    (self : MXThreadID) (w : World) :
  0 < referenceCount (lock w) < MXUSER_MAX_REC_DEPTH ->
  let w' := state_of (MXRecLockRelease self w) in
  referenceCount (lock w') = referenceCount (lock w) - 1 /\
  (referenceCount (lock w') = 0 ->
     nativeThreadID (lock w') = MXUSER_INVALID_OWNER /\
     calls w' = calls w ++ [CallRelease] /\
     nativeLock (lock w') = snd (mutex_unlock self (nativeLock (lock w)))) /\
  (0 < referenceCount (lock w') ->
     nativeThreadID (lock w') = nativeThreadID (lock w) /\
     calls w' = calls w /\
     nativeLock (lock w') = nativeLock (lock w)) /\
  (MXRecLockRelease self w = Done tt w' \/
   (vmx86_debug = true /\ referenceCount (lock w') = 0 /\
    release_result self w <> 0 /\
    MXRecLockRelease self w = Fatal (Panicked (release_result self w)) w')).
Proof.
  destruct w as [[n rc owner] cs]. simpl. intros Hrc.
  rewrite (MXRecLockRelease_run self n rc owner cs Hrc).
  unfold release_result. simpl.
  destruct (Z.eqb_spec (rc - 1) 0) as [Hz | Hz]; simpl.
  - destruct (mutex_unlock self n) as [err n'] eqn:Hunlock. simpl.
    destruct vmx86_debug eqn:Hdbg; simpl.
    + destruct (Z.eqb_spec err 0) as [Herr | Herr]; simpl;
        repeat split; auto; try lia.
    + repeat split; auto; lia.
  - repeat split; auto; lia.
Qed.

Lemma MXRecLockRelease_decrements_witness :
  0 < referenceCount (lock (raw_world [0] 2 5)) < MXUSER_MAX_REC_DEPTH /\
  referenceCount
    (lock (state_of (@MXRecLockRelease DebugBuild Scripted 5
                       (raw_world [0] 2 5)))) = 2 - 1.
Proof.
  assert (Hpre : 0 < referenceCount (lock (raw_world [0] 2 5))
                   < MXUSER_MAX_REC_DEPTH)
    by (vm_compute; split; reflexivity).
  split; [exact Hpre |].
  exact (proj1 (@MXRecLockRelease_decrements DebugBuild Scripted 5
                  (raw_world [0] 2 5) Hpre)).
Defined.

(* ------------------------------------------------------------------ *)
(** ** Acquisition *)

Lemma MXRecLockIncCount_fields `{NativeMutex}
    (self : MXThreadID) (n : NativeLock) (rc : Z) (owner : MXThreadID) :
  MXRecLockIncCount self 1 (mkMXRecLock n rc owner) =
    mkMXRecLock n (to_int (to_uint32 (to_uint32 rc + 1)))
                (if to_uint32 rc =? 0 then self else owner).
Proof.
  unfold MXRecLockIncCount, MXRecLockCount, MXRecLockSetOwner. simpl.
  destruct (to_uint32 rc =? 0); reflexivity.
Qed.

(** The re-entrant path of [MXRecLockAcquire]: the caller is the owner of
    a lock whose count is not 0. *)
Lemma MXRecLockAcquire_reentrant_run `{Build} `{NativeMutex}
    (self : MXThreadID) (n : NativeLock) (rc : Z) (cs : list NativeCall) :
  0 < to_uint32 rc ->
  MXRecLockAcquire self (mkWorld (mkMXRecLock n rc self) cs) =
    if to_uint32 rc <? MXUSER_MAX_REC_DEPTH
    then Done false
           (mkWorld (mkMXRecLock n (to_int (to_uint32 (to_uint32 rc + 1))) self)
                    cs)
    else Fatal AssertFailed (mkWorld (mkMXRecLock n rc self) cs).
Proof.
  intros Hpos. lock_unfold.
  unfold MXRecLockCount, MXRecLockIsOwner. simpl.
  destruct (Z.eqb_spec (to_uint32 rc) 0) as [Hz | Hz]; [lia |].
  rewrite Z.eqb_refl. simpl.
  replace (0 <? to_uint32 rc) with true by (symmetry; apply Z.ltb_lt; lia).
  simpl.
  destruct (to_uint32 rc <? MXUSER_MAX_REC_DEPTH); simpl; [| reflexivity].
  rewrite MXRecLockIncCount_fields.
  destruct (Z.eqb_spec (to_uint32 rc) 0) as [Hz' | _]; [lia | reflexivity].
Qed.

(** The native path of [MXRecLockAcquire]: the count is 0 or the caller
    is not the owner. *)
Lemma MXRecLockAcquire_native_run `{Build} `{NativeMutex}
    (self : MXThreadID) (n : NativeLock) (rc : Z) (owner : MXThreadID)
    (cs : list NativeCall) :
  to_uint32 rc = 0 \/ owner <> self ->
  MXRecLockAcquire self (mkWorld (mkMXRecLock n rc owner) cs) =
    let t := mutex_trylock self n in
    if fst t =? 0 then
      finish_native_acquire self false (snd t) rc owner
                            (cs ++ [CallTryAcquire])
    else if vmx86_debug && negb (fst t =? EBUSY) then
      Fatal (Panicked (fst t))
            (mkWorld (mkMXRecLock (snd t) rc owner) (cs ++ [CallTryAcquire]))
    else
      let b := mutex_lock self (snd t) in
      if vmx86_debug && negb (fst b =? 0) then
        Fatal (Panicked (fst b))
              (mkWorld (mkMXRecLock (snd b) rc owner)
                       (cs ++ [CallTryAcquire; CallAcquire]))
      else
        finish_native_acquire self true (snd b) rc owner
                              (cs ++ [CallTryAcquire; CallAcquire]).
Proof.
  intros Hfree. lock_unfold.
  unfold MXRecLockCount, MXRecLockIsOwner, finish_native_acquire. simpl.
  assert (Hcond : negb (to_uint32 rc =? 0) && (owner =? self) = false).
  { destruct Hfree as [Hz | Hne].
    - rewrite Hz. reflexivity.
    - apply Z.eqb_neq in Hne. rewrite Hne. apply andb_false_r. }
  rewrite Hcond. simpl.
  destruct (mutex_trylock self n) as [err n1]. simpl.
  destruct (Z.eqb_spec err 0) as [Herr | Herr]; simpl.
  - subst err. rewrite andb_false_r. simpl.
    destruct (Z.eqb_spec rc 0) as [Hrc | Hrc]; simpl; [| reflexivity].
    subst rc. unfold set_nativeLock. simpl.
    rewrite MXRecLockIncCount_fields. reflexivity.
  - destruct (vmx86_debug && negb (err =? EBUSY)); simpl; [reflexivity |].
    destruct (mutex_lock self n1) as [err' n2]. simpl.
    rewrite <- app_assoc. simpl.
    destruct (vmx86_debug && negb (err' =? 0)); simpl; [reflexivity |].
    destruct (Z.eqb_spec rc 0) as [Hrc | Hrc]; simpl; [| reflexivity].
    subst rc. unfold set_nativeLock. simpl.
    rewrite MXRecLockIncCount_fields. reflexivity.
Qed.

(** What [MXRecLockTryAcquire] does, by the result of the native try. *)
Lemma MXRecLockTryAcquire_run `{Build} `{NativeMutex}
    (self : MXThreadID) (n : NativeLock) (rc : Z) (owner : MXThreadID)
    (cs : list NativeCall) :
  MXRecLockTryAcquire self (mkWorld (mkMXRecLock n rc owner) cs) =
    let t := mutex_trylock self n in
    let cs' := cs ++ [CallTryAcquire] in
    if fst t =? 0 then
      let l' := MXRecLockIncCount self 1 (mkMXRecLock (snd t) rc owner) in
      if (0 <? MXRecLockCount l') &&
         (MXRecLockCount l' <? MXUSER_MAX_REC_DEPTH)
      then Done true (mkWorld l' cs')
      else Fatal AssertFailed (mkWorld l' cs')
    else if vmx86_debug && negb (fst t =? EBUSY) then
      Fatal (Panicked (fst t)) (mkWorld (mkMXRecLock (snd t) rc owner) cs')
    else
      Done false (mkWorld (mkMXRecLock (snd t) rc owner) cs').
Proof.
  lock_unfold. simpl.
  destruct (mutex_trylock self n) as [err n1]. simpl.
  destruct (err =? 0); simpl.
  - unfold set_nativeLock. simpl.
    match goal with
    | |- context [if ?c then _ else _] => destruct c
    end; reflexivity.
  - destruct (vmx86_debug && negb (err =? EBUSY)); reflexivity.
Qed.

(** Over the plain native primitives the body is [MXRecLockAcquire]. *)
Lemma MXRecLockAcquire_with_internals `{Build} `{NativeMutex}
    (self : MXThreadID) :
  MXRecLockAcquire_with MXRecLockTryAcquireInternal MXRecLockAcquireInternal
                        self =
  MXRecLockAcquire self.
Proof. reflexivity. Qed.

(** The re-entrant path among other threads: nothing is read after the
    entry test, so nothing of what they write is seen. *)
Lemma MXRecLockAcquire_shared_reentrant_run
    `{Build} `{NativeMutex} `{OtherThreads}
    (self : MXThreadID) (n : NativeLock) (rc : Z) (cs : list NativeCall) :
  0 < to_uint32 rc ->
  MXRecLockAcquire_shared self (mkWorld (mkMXRecLock n rc self) cs) =
    if to_uint32 rc <? MXUSER_MAX_REC_DEPTH
    then Done false
           (mkWorld (mkMXRecLock n (to_int (to_uint32 (to_uint32 rc + 1))) self)
                    cs)
    else Fatal AssertFailed (mkWorld (mkMXRecLock n rc self) cs).
Proof.
  intros Hpos. shared_unfold. lock_unfold.
  unfold MXRecLockCount, MXRecLockIsOwner. simpl.
  destruct (Z.eqb_spec (to_uint32 rc) 0) as [Hz | Hz]; [lia |].
  rewrite Z.eqb_refl. simpl.
  replace (0 <? to_uint32 rc) with true by (symmetry; apply Z.ltb_lt; lia).
  simpl.
  destruct (to_uint32 rc <? MXUSER_MAX_REC_DEPTH); simpl; [| reflexivity].
  rewrite MXRecLockIncCount_fields.
  destruct (Z.eqb_spec (to_uint32 rc) 0) as [Hz' | _]; [lia | reflexivity].
Qed.

(** The native path among other threads: the assertion and the first
    count work on what the caller finds once the native lock is taken. *)
Lemma MXRecLockAcquire_shared_native_run
    `{Build} `{NativeMutex} `{OtherThreads}
    (self : MXThreadID) (n : NativeLock) (rc : Z) (owner : MXThreadID)
    (cs : list NativeCall) :
  to_uint32 rc = 0 \/ owner <> self ->
  MXRecLockAcquire_shared self (mkWorld (mkMXRecLock n rc owner) cs) =
    let t := mutex_trylock self n in
    let f1 := found self CallTryAcquire (fst t) (rc, owner) in
    if fst t =? 0 then
      finish_native_acquire self false (snd t) (fst f1) (snd f1)
                            (cs ++ [CallTryAcquire])
    else if vmx86_debug && negb (fst t =? EBUSY) then
      Fatal (Panicked (fst t))
            (mkWorld (mkMXRecLock (snd t) (fst f1) (snd f1))
                     (cs ++ [CallTryAcquire]))
    else
      let b := mutex_lock self (snd t) in
      let f2 := found self CallAcquire (fst b) f1 in
      if vmx86_debug && negb (fst b =? 0) then
        Fatal (Panicked (fst b))
              (mkWorld (mkMXRecLock (snd b) (fst f2) (snd f2))
                       (cs ++ [CallTryAcquire; CallAcquire]))
      else
        finish_native_acquire self true (snd b) (fst f2) (snd f2)
                              (cs ++ [CallTryAcquire; CallAcquire]).
Proof.
  intros Hfree. shared_unfold. lock_unfold.
  unfold MXRecLockCount, MXRecLockIsOwner, finish_native_acquire. simpl.
  assert (Hcond : negb (to_uint32 rc =? 0) && (owner =? self) = false).
  { destruct Hfree as [Hz | Hne].
    - rewrite Hz. reflexivity.
    - apply Z.eqb_neq in Hne. rewrite Hne. apply andb_false_r. }
  rewrite Hcond. simpl.
  destruct (mutex_trylock self n) as [err n1]. simpl.
  destruct (found self CallTryAcquire err (rc, owner)) as [rc1 owner1] eqn:Hf1.
  simpl.
  destruct (Z.eqb_spec err 0) as [Herr | Herr]; simpl.
  - subst err. rewrite andb_false_r. simpl.
    destruct (Z.eqb_spec rc1 0) as [Hrc | Hrc]; simpl; [| reflexivity].
    subst rc1. rewrite MXRecLockIncCount_fields. reflexivity.
  - destruct (vmx86_debug && negb (err =? EBUSY)); simpl; [reflexivity |].
    destruct (mutex_lock self n1) as [err' n2]. simpl.
    destruct (found self CallAcquire err' (rc1, owner1))
      as [rc2 owner2] eqn:Hf2.
    simpl. rewrite <- app_assoc. simpl.
    destruct (vmx86_debug && negb (err' =? 0)); simpl; [reflexivity |].
    destruct (Z.eqb_spec rc2 0) as [Hrc | Hrc]; simpl; [| reflexivity].
    subst rc2. rewrite MXRecLockIncCount_fields. reflexivity.
Qed.

(** When nobody else writes to the structure, the acquisition among
    other threads is [MXRecLockAcquire]. *)
Lemma MXRecLockAcquire_shared_alone `{Build} `{NativeMutex}
    (self : MXThreadID) (w : World) :
  @MXRecLockAcquire_shared _ _ Alone self w = MXRecLockAcquire self w.
Proof.
  destruct w as [[n rc owner] cs].
  destruct (Z.eq_dec owner self) as [Hown | Hown];
    [destruct (Z.eq_dec (to_uint32 rc) 0) as [Hz | Hz] |].
  - rewrite MXRecLockAcquire_shared_native_run,
      MXRecLockAcquire_native_run by (now left). reflexivity.
  - subst owner. pose proof (to_uint32_range rc).
    rewrite MXRecLockAcquire_shared_reentrant_run,
      MXRecLockAcquire_reentrant_run by lia. reflexivity.
  - rewrite MXRecLockAcquire_shared_native_run,
      MXRecLockAcquire_native_run by (now right). reflexivity.
Qed.

(** C1, as the code has it.  For every call to [MXRecLockAcquire], [w]
    being the lock as the caller reads it on entry:
    - if the count is positive and the caller is the stored owner, the
      native mutex is not touched, and the call returns not-contended
      exactly when the depth assertion [count < MXUSER_MAX_REC_DEPTH]
      holds (it is fatal otherwise);
    - otherwise the non-blocking native try is made first.  When it
      succeeds no other native call follows and the call returns
      not-contended; when it reports busy the blocking native acquire
      follows and the call returns contended; any other result is fatal
      in a debug build ([vmx86_debug]), and in a build without it is
      treated like busy.  On this path the call returns exactly when the
      count it finds once the native lock is taken is 0 (the assertion is
      fatal otherwise) and, in a debug build, the blocking acquire
      returned 0 ([Panic] otherwise). *)
Theorem MXRecLockAcquire_paths `{Build} `{NativeMutex} `{OtherThreads}
    (self : MXThreadID) (w : World) :
  let o := MXRecLockAcquire_shared self w in
  let w' := state_of o in
  (0 < MXRecLockCount (lock w) /\ nativeThreadID (lock w) = self ->
     calls w' = calls w /\
     nativeLock (lock w') = nativeLock (lock w) /\
     o = if MXRecLockCount (lock w) <? MXUSER_MAX_REC_DEPTH
         then Done false w' else Fatal AssertFailed w') /\
  (~ (0 < MXRecLockCount (lock w) /\ nativeThreadID (lock w) = self) ->
     (try_result self w = 0 ->
        calls w' = calls w ++ [CallTryAcquire] /\
        o = if fst (found_after_try self w) =? 0
            then Done false w' else Fatal AssertFailed w') /\
     (try_result self w = EBUSY ->
        calls w' = calls w ++ [CallTryAcquire; CallAcquire] /\
        o = if vmx86_debug && negb (lock_result_after_try self w =? 0)
            then Fatal (Panicked (lock_result_after_try self w)) w'
            else if fst (found_after_lock self w) =? 0
                 then Done true w' else Fatal AssertFailed w') /\
     (try_result self w <> 0 -> try_result self w <> EBUSY ->
        if vmx86_debug
        then o = Fatal (Panicked (try_result self w)) w' /\
             calls w' = calls w ++ [CallTryAcquire]
        else calls w' = calls w ++ [CallTryAcquire; CallAcquire] /\
             o = if fst (found_after_lock self w) =? 0
                 then Done true w' else Fatal AssertFailed w')).
Proof.
  destruct w as [[n rc owner] cs]. cbv zeta. split.
  - simpl. intros [Hpos Hown]. subst owner.
    unfold MXRecLockCount in *. simpl in *.
    rewrite (MXRecLockAcquire_shared_reentrant_run self n rc cs Hpos).
    destruct (to_uint32 rc <? MXUSER_MAX_REC_DEPTH); simpl;
      repeat split.
  - simpl. intros Hfree.
    assert (Hnat : to_uint32 rc = 0 \/ owner <> self).
    { destruct (Z.eq_dec owner self) as [Hown | Hown]; [| now right].
      left. unfold MXRecLockCount in Hfree. simpl in Hfree.
      pose proof (to_uint32_range rc). lia. }
    rewrite (MXRecLockAcquire_shared_native_run self n rc owner cs Hnat).
    unfold found_after_lock, found_after_try, try_result,
      lock_result_after_try, finish_native_acquire. simpl.
    destruct (mutex_trylock self n) as [err n1]. simpl.
    destruct (found self CallTryAcquire err (rc, owner)) as [rc1 owner1].
    simpl.
    destruct (mutex_lock self n1) as [err' n2]. simpl.
    destruct (found self CallAcquire err' (rc1, owner1)) as [rc2 owner2].
    simpl.
    split; [| split].
    + intros ->. simpl. destruct (rc1 =? 0); split; reflexivity.
    + intros ->. change (EBUSY =? 0) with false.
      rewrite Z.eqb_refl, andb_false_r. cbv iota.
      destruct (vmx86_debug && negb (err' =? 0)); simpl;
        [| destruct (rc2 =? 0)]; split; reflexivity.
    + intros Hne0 Hnebusy.
      apply Z.eqb_neq in Hne0. apply Z.eqb_neq in Hnebusy.
      rewrite Hne0, Hnebusy.
      destruct vmx86_debug; simpl; [split; reflexivity |].
      destruct (rc2 =? 0); split; reflexivity.
Qed.

Lemma MXRecLockAcquire_paths_witness :
  ~ (0 < @MXRecLockCount Scripted (lock (raw_world [16; 0] 3 9)) /\
     nativeThreadID (lock (raw_world [16; 0] 3 9)) = 5) /\
  @try_result Scripted 5 (raw_world [16; 0] 3 9) = EBUSY /\
  @MXRecLockAcquire_shared DebugBuild Scripted HolderReleased 5
    (raw_world [16; 0] 3 9) =
    Done true (@mkWorld Scripted (@mkMXRecLock Scripted [] 1 5)
                 [CallTryAcquire; CallAcquire]).
Proof.
  assert (Hfree : ~ (0 < @MXRecLockCount Scripted
                           (lock (raw_world [16; 0] 3 9)) /\
                     nativeThreadID (lock (raw_world [16; 0] 3 9)) = 5))
    by (intros [_ Hown]; discriminate Hown).
  assert (Hbusy : @try_result Scripted 5 (raw_world [16; 0] 3 9) = EBUSY)
    by reflexivity.
  split; [exact Hfree |]. split; [exact Hbusy |].
  exact (proj2 (proj1 (proj2 (proj2
           (@MXRecLockAcquire_paths DebugBuild Scripted HolderReleased 5
              (raw_world [16; 0] 3 9)) Hfree)) Hbusy)).
Defined.

(** C1 as stated fails: in a build without [vmx86_debug] a native try
    that returns neither success nor busy (here 22) is not fatal; the
    blocking acquire follows and the call returns contended. *)
Lemma MXRecLockAcquire_error_not_always_fatal :
  ~ (forall (B : Build) (N : NativeMutex) (self : MXThreadID) (w : World),
       ~ (0 < referenceCount (lock w) /\ nativeThreadID (lock w) = self) ->
       try_result self w <> 0 -> try_result self w <> EBUSY ->
       exists f w', MXRecLockAcquire self w = Fatal f w').
Proof.
  intros Hclaim.
  destruct (Hclaim ReleaseBuild Scripted 5 (raw_world [22; 0] 0 (-1)))
    as (f & w' & Hrun).
  - vm_compute. intros [Hlt _]. discriminate Hlt.
  - vm_compute. discriminate.
  - vm_compute. discriminate.
  - vm_compute in Hrun. discriminate Hrun.
Qed.

(* ------------------------------------------------------------------ *)
(** ** Conditional acquisition *)

(** C6, as the code has it.  [MXRecLockTryAcquire] makes one native
    call, the non-blocking try, and never the blocking acquire.  When
    the try succeeds the count is incremented by one, the owner becomes
    the caller if the count was 0, and the call returns true, provided
    the incremented count is below [MXUSER_MAX_REC_DEPTH] (the assertion
    is fatal otherwise).  When the try reports busy the call returns
    false, [referenceCount] and the owner untouched.  Any other result is
    fatal in a debug build ([vmx86_debug]); in a build without it the call
    returns false as for busy. *)
Theorem MXRecLockTryAcquire_outcomes `{Build} `{NativeMutex}
    (self : MXThreadID) (w : World) :
  let o := MXRecLockTryAcquire self w in
  let w' := state_of o in
  calls w' = calls w ++ [CallTryAcquire] /\
  (try_result self w = 0 ->
     nativeThreadID (lock w') =
       (if MXRecLockCount (lock w) =? 0 then self
        else nativeThreadID (lock w)) /\
     (MXRecLockCount (lock w) + 1 < MXUSER_MAX_REC_DEPTH ->
        MXRecLockCount (lock w') = MXRecLockCount (lock w) + 1 /\
        o = Done true w') /\
     (MXUSER_MAX_REC_DEPTH <= MXRecLockCount (lock w) + 1 ->
        o = Fatal AssertFailed w')) /\
  (try_result self w = EBUSY ->
     o = Done false w' /\
     referenceCount (lock w') = referenceCount (lock w) /\
     nativeThreadID (lock w') = nativeThreadID (lock w)) /\
  (try_result self w <> 0 -> try_result self w <> EBUSY ->
     referenceCount (lock w') = referenceCount (lock w) /\
     nativeThreadID (lock w') = nativeThreadID (lock w) /\
     o = if vmx86_debug
         then Fatal (Panicked (try_result self w)) w'
         else Done false w').
Proof.
  destruct w as [[n rc owner] cs]. cbv zeta.
  rewrite MXRecLockTryAcquire_run.
  unfold try_result. simpl.
  destruct (mutex_trylock self n) as [err n1]. simpl.
  rewrite MXRecLockIncCount_fields.
  unfold MXRecLockCount. simpl.
  rewrite to_uint32_to_int.
  pose proof (to_uint32_range rc) as Hrange.
  assert (Hmax : MXUSER_MAX_REC_DEPTH = 16) by reflexivity.
  split; [| split; [| split]].
  - destruct (err =? 0); [| destruct (vmx86_debug && negb (err =? EBUSY))];
      try reflexivity.
    match goal with
    | |- context [if ?c then _ else _] => destruct c
    end; reflexivity.
  - intros ->. simpl. split; [| split].
    + match goal with
      | |- context [if ?c then Done _ _ else _] => destruct c
      end; reflexivity.
    + intros Hlt.
      assert (Hinc : to_uint32 (to_uint32 (to_uint32 rc + 1)) =
                     to_uint32 rc + 1).
      { rewrite !(to_uint32_small (to_uint32 rc + 1)) by lia. reflexivity. }
      rewrite Hinc.
      replace (0 <? to_uint32 rc + 1) with true
        by (symmetry; apply Z.ltb_lt; lia).
      replace (to_uint32 rc + 1 <? MXUSER_MAX_REC_DEPTH) with true
        by (symmetry; apply Z.ltb_lt; lia).
      simpl. rewrite to_uint32_to_int, Hinc. split; reflexivity.
    + intros Hge.
      assert (Hbad : (0 <? to_uint32 (to_uint32 (to_uint32 rc + 1))) &&
                     (to_uint32 (to_uint32 (to_uint32 rc + 1)) <?
                      MXUSER_MAX_REC_DEPTH) = false).
      { destruct (Z.eq_dec (to_uint32 rc + 1) (2 ^ 32)) as [Hwrap | Hno].
        - rewrite Hwrap. reflexivity.
        - rewrite !(to_uint32_small (to_uint32 rc + 1)) by lia.
          apply andb_false_iff. right. apply Z.ltb_ge. lia. }
      rewrite Hbad. reflexivity.
  - intros ->. simpl. rewrite andb_false_r. repeat split.
  - intros Hne0 Hnebusy.
    apply Z.eqb_neq in Hne0. apply Z.eqb_neq in Hnebusy.
    rewrite Hne0, Hnebusy. simpl. rewrite andb_true_r.
    destruct vmx86_debug; repeat split.
Qed.

Lemma MXRecLockTryAcquire_outcomes_witness :
  @try_result Scripted 5 (raw_world [16] 0 (-1)) = EBUSY /\
  @MXRecLockTryAcquire DebugBuild Scripted 5 (raw_world [16] 0 (-1)) =
    Done false (state_of (@MXRecLockTryAcquire DebugBuild Scripted 5
                            (raw_world [16] 0 (-1)))).
Proof.
  assert (Hbusy : @try_result Scripted 5 (raw_world [16] 0 (-1)) = EBUSY)
    by reflexivity.
  split; [exact Hbusy |].
  exact (proj1 (proj1 (proj2 (proj2
           (@MXRecLockTryAcquire_outcomes DebugBuild Scripted 5
              (raw_world [16] 0 (-1))))) Hbusy)).
Defined.

(** C6 as stated fails: in a build without [vmx86_debug] a native try
    that returns neither success nor busy (here 22) is not fatal; the
    call returns false. *)
Lemma MXRecLockTryAcquire_error_not_always_fatal :
  ~ (forall (B : Build) (N : NativeMutex) (self : MXThreadID) (w : World),
       try_result self w <> 0 -> try_result self w <> EBUSY ->
       exists f w', MXRecLockTryAcquire self w = Fatal f w').
Proof.
  intros Hclaim.
  destruct (Hclaim ReleaseBuild Scripted 5 (raw_world [22] 0 (-1)))
    as (f & w' & Hrun).
  - vm_compute. discriminate.
  - vm_compute. discriminate.
  - vm_compute in Hrun. discriminate Hrun.
Qed.

(** C9, as the code has it.  [MXRecLockTryAcquire] has no re-entrant
    path.  On a lock the caller already holds (positive count, caller is
    the owner), when the native try reports busy the call returns false
    and leaves [referenceCount] and the owner as they were.
    [MXRecLockAcquire] by the same thread on the same lock succeeds, not
    contended and without a native call, when the count is below
    [MXUSER_MAX_REC_DEPTH]; from [MXUSER_MAX_REC_DEPTH] on its depth
    assertion is fatal. *)
Theorem MXRecLockTryAcquire_no_reentrant_path `{Build} `{NativeMutex}
    (self : MXThreadID) (w : World) :
  0 < MXRecLockCount (lock w) ->
  nativeThreadID (lock w) = self ->
  try_result self w = EBUSY ->
  (exists w' : World,
     MXRecLockTryAcquire self w = Done false w' /\
     referenceCount (lock w') = referenceCount (lock w) /\
     nativeThreadID (lock w') = nativeThreadID (lock w) /\
     calls w' = calls w ++ [CallTryAcquire]) /\
  (MXRecLockCount (lock w) < MXUSER_MAX_REC_DEPTH ->
   exists w'' : World,
     MXRecLockAcquire self w = Done false w'' /\
     MXRecLockCount (lock w'') = MXRecLockCount (lock w) + 1 /\
     nativeThreadID (lock w'') = self /\
     nativeLock (lock w'') = nativeLock (lock w) /\
     calls w'' = calls w) /\
  (MXUSER_MAX_REC_DEPTH <= MXRecLockCount (lock w) ->
   MXRecLockAcquire self w = Fatal AssertFailed w).
Proof.
  destruct w as [[n rc owner] cs]. unfold MXRecLockCount, try_result. simpl.
  intros Hpos Hown Hbusy. subst owner. split; [| split].
  - rewrite MXRecLockTryAcquire_run. cbv zeta. rewrite Hbusy.
    change (EBUSY =? 0) with false. rewrite Z.eqb_refl, andb_false_r.
    cbv iota. eexists. repeat split.
  - intros Hlt.
    rewrite (MXRecLockAcquire_reentrant_run self n rc cs Hpos).
    replace (to_uint32 rc <? MXUSER_MAX_REC_DEPTH) with true
      by (symmetry; apply Z.ltb_lt; lia).
    eexists. split; [reflexivity |]. simpl.
    rewrite to_uint32_to_int.
    assert (Hmax : MXUSER_MAX_REC_DEPTH = 16) by reflexivity.
    rewrite !(to_uint32_small (to_uint32 rc + 1)) by lia.
    repeat split.
  - intros Hge.
    rewrite (MXRecLockAcquire_reentrant_run self n rc cs Hpos).
    replace (to_uint32 rc <? MXUSER_MAX_REC_DEPTH) with false
      by (symmetry; apply Z.ltb_ge; lia).
    reflexivity.
Qed.

Lemma MXRecLockTryAcquire_no_reentrant_path_witness :
  exists w' : @World Scripted,
    @MXRecLockTryAcquire DebugBuild Scripted 5 (raw_world [16] 2 5) =
      Done false w' /\
    referenceCount (lock w') = 2 /\
    nativeThreadID (lock w') = 5 /\
    calls w' = [CallTryAcquire].
Proof.
  refine (proj1 (@MXRecLockTryAcquire_no_reentrant_path DebugBuild Scripted 5
                   (raw_world [16] 2 5) _ _ _));
    reflexivity.
Defined.

(** C9 as stated fails on a lock held [MXUSER_MAX_REC_DEPTH] times by
    the caller (the depth sixteen successive acquisitions reach): the
    native try reports busy and [MXRecLockTryAcquire] returns false, but
    [MXRecLockAcquire] by the same thread does not succeed, its depth
    assertion fails. *)
Lemma MXRecLockAcquire_reentrant_not_at_max_depth :
  ~ (forall (B : Build) (N : NativeMutex) (self : MXThreadID) (w : World),
       0 < referenceCount (lock w) ->
       nativeThreadID (lock w) = self ->
       try_result self w = EBUSY ->
       (exists w' : World,
          MXRecLockTryAcquire self w = Done false w' /\
          referenceCount (lock w') = referenceCount (lock w) /\
          nativeThreadID (lock w') = nativeThreadID (lock w)) /\
       (exists (c : bool) (w'' : World),
          MXRecLockAcquire self w = Done c w'')).
Proof.
  intros Hclaim.
  destruct (Hclaim DebugBuild Scripted 5 (raw_world [16] 16 5))
    as (_ & c & w'' & Hrun).
  - reflexivity.
  - reflexivity.
  - reflexivity.
  - vm_compute in Hrun. discriminate Hrun.
Qed.

(* ------------------------------------------------------------------ *)
(** ** Re-entrance *)

Lemma acquire_times_S `{Build} `{NativeMutex}
    (self : MXThreadID) (k : nat) (w : World) :
  acquire_times self (S k) w =
    match MXRecLockAcquire self w with
    | Done c w1 =>
        match acquire_times self k w1 with
        | Done cs w2 => Done (c :: cs) w2
        | Fatal f w2 => Fatal f w2
        end
    | Fatal f w1 => Fatal f w1
    end.
Proof. reflexivity. Qed.

(** Acquisitions by the owner of a held lock, up to the depth bound. *)
Lemma acquire_times_reentrant `{Build} `{NativeMutex}
    (self : MXThreadID) (n : NativeLock) (cs : list NativeCall) (k : nat) :
  forall rc : Z,
    0 < rc -> rc + Z.of_nat k <= MXUSER_MAX_REC_DEPTH ->
    acquire_times self k (mkWorld (mkMXRecLock n rc self) cs) =
      Done (repeat false k)
           (mkWorld (mkMXRecLock n (rc + Z.of_nat k) self) cs).
Proof.
  assert (Hmax : MXUSER_MAX_REC_DEPTH = 16) by reflexivity.
  induction k as [| k IH]; intros rc Hpos Hbound.
  - simpl. unfold ret. now rewrite Z.add_0_r.
  - cbn [acquire_times]. unfold bind at 1.
    rewrite MXRecLockAcquire_reentrant_run
      by (rewrite to_uint32_small; lia).
    rewrite inc_small by lia.
    rewrite (to_uint32_small rc) by lia.
    replace (rc <? MXUSER_MAX_REC_DEPTH) with true
      by (symmetry; apply Z.ltb_lt; lia).
    unfold bind. rewrite IH by lia. unfold ret. simpl repeat.
    replace (rc + 1 + Z.of_nat k) with (rc + Z.of_nat (S k)) by lia.
    reflexivity.
Qed.

(** As many releases as the count: the last one, and only the last one,
    releases the native mutex. *)
Lemma release_times_all `{Build} `{NativeMutex}
    (self : MXThreadID) (n : NativeLock) (owner : MXThreadID)
    (cs : list NativeCall) (k : nat) :
  (0 < k)%nat ->
  Z.of_nat k < MXUSER_MAX_REC_DEPTH ->
  (vmx86_debug = true -> fst (mutex_unlock self n) = 0) ->
  release_times self k (mkWorld (mkMXRecLock n (Z.of_nat k) owner) cs) =
    Done tt (mkWorld (mkMXRecLock (snd (mutex_unlock self n)) 0
                                  MXUSER_INVALID_OWNER)
                     (cs ++ [CallRelease])).
Proof.
  assert (Hmax : MXUSER_MAX_REC_DEPTH = 16) by reflexivity.
  intros Hk Hbound Hok.
  induction k as [| k IH]; [lia |].
  cbn [release_times]. unfold bind at 1.
  rewrite MXRecLockRelease_run by lia.
  destruct k as [| k'].
  - simpl. unfold ret.
    destruct vmx86_debug; simpl; [rewrite Hok by reflexivity |];
      reflexivity.
  - replace (Z.of_nat (S (S k')) - 1) with (Z.of_nat (S k')) by lia.
    replace (Z.of_nat (S k') =? 0) with false
      by (symmetry; apply Z.eqb_neq; lia).
    apply IH; lia.
Qed.

(** A call of [MXRecLockAcquire] that returns on a lock the caller does
    not hold leaves the lock held once by the caller. *)
Lemma MXRecLockAcquire_first `{Build} `{NativeMutex}
    (self : MXThreadID) (w w1 : World) (c : bool) :
  ~ (0 < MXRecLockCount (lock w) /\ nativeThreadID (lock w) = self) ->
  MXRecLockAcquire self w = Done c w1 ->
  referenceCount (lock w) = 0 /\
  referenceCount (lock w1) = 1 /\ nativeThreadID (lock w1) = self.
Proof.
  destruct w as [[n rc owner] cs]. unfold MXRecLockCount. simpl.
  intros Hfree.
  assert (Hnat : to_uint32 rc = 0 \/ owner <> self).
  { destruct (Z.eq_dec owner self) as [Hown | Hown]; [| now right].
    left. pose proof (to_uint32_range rc). lia. }
  rewrite (MXRecLockAcquire_native_run self n rc owner cs Hnat).
  cbv zeta. unfold finish_native_acquire.
  destruct (Z.eqb_spec rc 0) as [Hrc | Hrc].
  - repeat match goal with
           | |- context [if ?b then _ else _] => destruct b
           end;
      intros Hrun; inversion Hrun; subst; simpl; auto.
  - repeat match goal with
           | |- context [if ?b then _ else _] => destruct b
           end;
      intros Hrun; discriminate Hrun.
Qed.

(** On a free lock the first [MXRecLockAcquire] returns whenever the
    native mutex grants the lock (which only a debug build insists on),
    contended exactly when the native try did not succeed at once. *)
Lemma MXRecLockAcquire_free `{Build} `{NativeMutex}
    (self : MXThreadID) (w : World) :
  referenceCount (lock w) = 0 ->
  (vmx86_debug = true ->
   try_result self w = 0 \/
   (try_result self w = EBUSY /\ lock_result_after_try self w = 0)) ->
  exists w1 : World,
    MXRecLockAcquire self w = Done (negb (try_result self w =? 0)) w1.
Proof.
  destruct w as [[n rc owner] cs].
  unfold try_result, lock_result_after_try. simpl.
  intros -> Hgrant.
  rewrite MXRecLockAcquire_native_run by (left; reflexivity).
  cbv zeta. unfold finish_native_acquire. simpl (0 =? 0). cbv iota.
  destruct (Z.eqb_spec (fst (mutex_trylock self n)) 0) as [Htry | Htry].
  - eexists. reflexivity.
  - destruct vmx86_debug; simpl.
    + destruct (Hgrant eq_refl) as [Hzero | [Hbusy Hlock]]; [contradiction |].
      rewrite Hbusy, Hlock. simpl. eexists. reflexivity.
    + eexists. reflexivity.
Qed.

(** C2. For every [N] with [0 < N < MXUSER_MAX_REC_DEPTH]: a thread
    that does not hold the lock and whose first [MXRecLockAcquire] is
    granted, calling [MXRecLockAcquire] [N] times and then
    [MXRecLockRelease] [N] times, never blocks on itself: every acquire
    after the first returns not-contended and makes no native call.
    After the [N]th release, the only one to call the native release,
    [MXRecLockCount] is 0 and the owner is the no-owner value. *)
Theorem acquire_release_reentrant `{Build} `{NativeMutex}
    (self : MXThreadID) (N : nat) (w w1 : World) (c : bool) :
  (0 < N)%nat -> Z.of_nat N < MXUSER_MAX_REC_DEPTH ->
  ~ (0 < MXRecLockCount (lock w) /\ nativeThreadID (lock w) = self) ->
  MXRecLockAcquire self w = Done c w1 ->
  (vmx86_debug = true -> release_result self w1 = 0) ->
  exists w2 w3 : World,
    acquire_times self N w = Done (c :: repeat false (N - 1)) w2 /\
    calls w2 = calls w1 /\
    nativeLock (lock w2) = nativeLock (lock w1) /\
    MXRecLockCount (lock w2) = Z.of_nat N /\
    nativeThreadID (lock w2) = self /\
    release_times self N w2 = Done tt w3 /\
    calls w3 = calls w1 ++ [CallRelease] /\
    MXRecLockCount (lock w3) = 0 /\
    nativeThreadID (lock w3) = MXUSER_INVALID_OWNER.
Proof.
  assert (Hmax : MXUSER_MAX_REC_DEPTH = 16) by reflexivity.
  intros HN Hbound Hfree Hrun Hok.
  destruct (MXRecLockAcquire_first self w w1 c Hfree Hrun)
    as (_ & Hrc1 & Hown1).
  destruct w1 as [[n1 rc1 owner1] cs1]. simpl in Hrc1, Hown1. subst rc1 owner1.
  unfold release_result in Hok. simpl in Hok.
  destruct N as [| k]; [lia |].
  exists (mkWorld (mkMXRecLock n1 (Z.of_nat (S k)) self) cs1).
  eexists.
  split; [| split; [| split; [| split; [| split; [| split]]]]].
  - cbn [acquire_times]. unfold bind at 1. rewrite Hrun.
    unfold bind. rewrite acquire_times_reentrant by lia.
    unfold ret. replace (S k - 1)%nat with k by lia.
    replace (1 + Z.of_nat k) with (Z.of_nat (S k)) by lia. reflexivity.
  - reflexivity.
  - reflexivity.
  - apply MXRecLockCount_small. simpl. lia.
  - reflexivity.
  - apply release_times_all; [lia | lia | exact Hok].
  - repeat split.
Qed.

Lemma acquire_release_reentrant_witness :
  exists w2 w3 : @World Scripted,
    @acquire_times DebugBuild Scripted 5 3 (raw_world [16; 0; 0] 0 (-1)) =
      Done (true :: repeat false (3 - 1)) w2 /\
    calls w2 = [CallTryAcquire; CallAcquire] /\
    nativeLock (lock w2) = [0] /\
    MXRecLockCount (lock w2) = Z.of_nat 3 /\
    nativeThreadID (lock w2) = 5 /\
    @release_times DebugBuild Scripted 5 3 w2 = Done tt w3 /\
    calls w3 = [CallTryAcquire; CallAcquire] ++ [CallRelease] /\
    MXRecLockCount (lock w3) = 0 /\
    nativeThreadID (lock w3) = @MXUSER_INVALID_OWNER Scripted.
Proof.
  refine (@acquire_release_reentrant DebugBuild Scripted 5 3
            (raw_world [16; 0; 0] 0 (-1))
            (@mkWorld Scripted (@mkMXRecLock Scripted [0] 1 5)
                      [CallTryAcquire; CallAcquire])
            true _ _ _ _ _).
  - lia.
  - vm_compute. reflexivity.
  - vm_compute. intros [Hlt _]. discriminate Hlt.
  - reflexivity.
  - reflexivity.
Defined.

(* ------------------------------------------------------------------ *)
(** ** The depth bound *)

(** A successful [MXRecLockInit] establishes the bound. *)
Lemma MXRecLockInit_count_in_bound `{NativeMutex} (w w' : World) :
  MXRecLockInit w = Done true w' -> count_in_bound (lock w').
Proof.
  destruct w as [[n rc owner] cs]. lock_unfold. simpl.
  destruct (fst (mutex_init n) =? 0); simpl; intros Heq;
    inversion Heq; subst.
  unfold count_in_bound. simpl. unfold MXUSER_MAX_REC_DEPTH. lia.
Qed.

(** [MXRecLockTryAcquire] keeps the bound: its assertion is checked on
    the incremented count. *)
Lemma MXRecLockTryAcquire_count_in_bound `{Build} `{NativeMutex}
    (self : MXThreadID) (w w' : World) (acquired : bool) :
  count_in_bound (lock w) ->
  MXRecLockTryAcquire self w = Done acquired w' ->
  count_in_bound (lock w').
Proof.
  destruct w as [[n rc owner] cs]. unfold count_in_bound. simpl.
  assert (Hmax : MXUSER_MAX_REC_DEPTH = 16) by reflexivity.
  intros Hinv. rewrite MXRecLockTryAcquire_run. cbv zeta.
  rewrite MXRecLockIncCount_fields. unfold MXRecLockCount. simpl.
  rewrite inc_small by lia.
  destruct (fst (mutex_trylock self n) =? 0).
  - rewrite (to_uint32_small (rc + 1)) by lia.
    destruct (Z.ltb_spec (rc + 1) MXUSER_MAX_REC_DEPTH) as [Hlt | Hge].
    + rewrite andb_true_r. destruct (0 <? rc + 1); intros Heq;
        inversion Heq; subst; simpl; lia.
    + rewrite andb_false_r. discriminate.
  - destruct (vmx86_debug && negb (fst (mutex_trylock self n) =? EBUSY));
      intros Heq; inversion Heq; subst; simpl; lia.
Qed.

(** [MXRecLockRelease] keeps the bound. *)
Lemma MXRecLockRelease_count_in_bound `{Build} `{NativeMutex}
    (self : MXThreadID) (w w' : World) :
  0 < referenceCount (lock w) < MXUSER_MAX_REC_DEPTH ->
  MXRecLockRelease self w = Done tt w' ->
  count_in_bound (lock w').
Proof.
  destruct w as [[n rc owner] cs]. simpl. intros Hpre.
  rewrite (MXRecLockRelease_run self n rc owner cs Hpre). cbv zeta.
  unfold count_in_bound.
  repeat match goal with
         | |- context [if ?b then _ else _] => destruct b
         end;
    intros Heq; inversion Heq; subst; simpl; lia.
Qed.

(** [MXRecLockAcquire] keeps the count within [MXUSER_MAX_REC_DEPTH]
    inclusive only: its assertion is checked before the increment. *)
Lemma MXRecLockAcquire_count_weak_bound `{Build} `{NativeMutex}
    (self : MXThreadID) (w w' : World) (c : bool) :
  count_in_bound (lock w) ->
  MXRecLockAcquire self w = Done c w' ->
  0 < referenceCount (lock w') <= MXUSER_MAX_REC_DEPTH.
Proof.
  assert (Hmax : MXUSER_MAX_REC_DEPTH = 16) by reflexivity.
  unfold count_in_bound. intros Hinv Hrun.
  destruct (Z.eq_dec (nativeThreadID (lock w)) self) as [Hown | Hown];
    [destruct (Z.eq_dec (referenceCount (lock w)) 0) as [Hz | Hz] |].
  - destruct (MXRecLockAcquire_first self w w' c) as (_ & Hrc & _); auto.
    + rewrite MXRecLockCount_small by lia. lia.
    + lia.
  - destruct w as [[n rc owner] cs]. simpl in *. subst owner.
    rewrite MXRecLockAcquire_reentrant_run in Hrun
      by (rewrite to_uint32_small; lia).
    rewrite inc_small in Hrun by lia.
    destruct (to_uint32 rc <? MXUSER_MAX_REC_DEPTH);
      inversion Hrun; subst; simpl; lia.
  - destruct (MXRecLockAcquire_first self w w' c) as (_ & Hrc & _); auto.
    + intros [_ Heq]. contradiction.
    + lia.
Qed.

(** A re-entrant [MXRecLockAcquire] that returns was entered with a count
    of at most [MXUSER_MAX_REC_DEPTH - 1]. *)
Lemma MXRecLockAcquire_reentrant_bound `{Build} `{NativeMutex}
    (self : MXThreadID) (w w' : World) (c : bool) :
  0 < MXRecLockCount (lock w) -> nativeThreadID (lock w) = self ->
  MXRecLockAcquire self w = Done c w' ->
  MXRecLockCount (lock w) <= MXUSER_MAX_REC_DEPTH - 1.
Proof.
  destruct w as [[n rc owner] cs]. unfold MXRecLockCount. simpl.
  intros Hpos Hown. subst owner.
  rewrite (MXRecLockAcquire_reentrant_run self n rc cs Hpos).
  destruct (Z.ltb_spec (to_uint32 rc) MXUSER_MAX_REC_DEPTH) as [Hlt | Hge];
    [intros _; unfold MXUSER_MAX_REC_DEPTH in *; lia | discriminate].
Qed.

(** C3, where the code departs from it.  On a lock held
    [MXUSER_MAX_REC_DEPTH - 1] times by the caller, within the bound,
    [MXRecLockAcquire] passes its assertion and returns with
    [referenceCount] equal to [MXUSER_MAX_REC_DEPTH]; on the lock it
    leaves, the assertion of [MXRecLockRelease] fails. *)
Theorem MXRecLockAcquire_breaks_count_bound `{Build} `{NativeMutex}
    (self : MXThreadID) (n : NativeLock) (cs : list NativeCall) :
  let w := mkWorld (mkMXRecLock n (MXUSER_MAX_REC_DEPTH - 1) self) cs in
  let w' := mkWorld (mkMXRecLock n MXUSER_MAX_REC_DEPTH self) cs in
  count_in_bound (lock w) /\
  MXRecLockAcquire self w = Done false w' /\
  ~ count_in_bound (lock w') /\
  MXRecLockRelease self w' = Fatal AssertFailed w'.
Proof.
  cbv zeta. split; [| split; [| split]].
  - unfold count_in_bound. simpl. unfold MXUSER_MAX_REC_DEPTH. lia.
  - now rewrite MXRecLockAcquire_reentrant_run.
  - unfold count_in_bound. simpl. lia.
  - reflexivity.
Qed.

(** C4, where the code departs from it.  On a free lock whose native
    try succeeds, [MXUSER_MAX_REC_DEPTH] successive [MXRecLockAcquire]
    calls by one thread all return, one more than
    [MXUSER_MAX_REC_DEPTH - 1], and leave [referenceCount] equal to
    [MXUSER_MAX_REC_DEPTH]; the assertion trips on the call after
    that. *)
Theorem MXRecLockAcquire_depth_overrun `{Build} `{NativeMutex}
    (self : MXThreadID) (w : World) :
  referenceCount (lock w) = 0 ->
  try_result self w = 0 ->
  exists w' : World,
    acquire_times self (Z.to_nat MXUSER_MAX_REC_DEPTH) w =
      Done (repeat false (Z.to_nat MXUSER_MAX_REC_DEPTH)) w' /\
    referenceCount (lock w') = MXUSER_MAX_REC_DEPTH /\
    nativeThreadID (lock w') = self /\
    MXRecLockAcquire self w' = Fatal AssertFailed w'.
Proof.
  destruct w as [[n rc owner] cs]. unfold try_result.
  cbn [lock nativeLock referenceCount].
  intros -> Htry.
  change (Z.to_nat MXUSER_MAX_REC_DEPTH) with (S 15).
  rewrite acquire_times_S.
  rewrite MXRecLockAcquire_native_run by (left; reflexivity).
  cbv zeta. rewrite Htry. simpl (0 =? 0). cbv iota.
  unfold finish_native_acquire. simpl (0 =? 0). cbv iota.
  rewrite acquire_times_reentrant
    by (unfold MXUSER_MAX_REC_DEPTH; simpl; lia).
  eexists. split; [reflexivity |].
  split; [reflexivity |]. split; [reflexivity |].
  now rewrite MXRecLockAcquire_reentrant_run.
Qed.

Lemma MXRecLockAcquire_depth_overrun_witness :
  exists w' : @World Scripted,
    @acquire_times DebugBuild Scripted 5 (Z.to_nat MXUSER_MAX_REC_DEPTH)
      (raw_world [] 0 (-1)) =
      Done (repeat false (Z.to_nat MXUSER_MAX_REC_DEPTH)) w' /\
    referenceCount (lock w') = MXUSER_MAX_REC_DEPTH /\
    nativeThreadID (lock w') = 5 /\
    @MXRecLockAcquire DebugBuild Scripted 5 w' = Fatal AssertFailed w'.
Proof.
  refine (@MXRecLockAcquire_depth_overrun DebugBuild Scripted 5
            (raw_world [] 0 (-1)) _ _);
    reflexivity.
Defined.

(* ------------------------------------------------------------------ *)
(** ** Acquisition statistics *)

Lemma to_uint64_range (z : Z) : is_uint64 (to_uint64 z).
Proof. unfold is_uint64, to_uint64. apply Z.mod_pos_bound. lia. Qed.

Lemma to_uint64_small (z : Z) : is_uint64 z -> to_uint64 z = z.
Proof. unfold is_uint64, to_uint64. intros Hz. now apply Z.mod_small. Qed.

Lemma to_uint64_add_l (a b : Z) : to_uint64 (to_uint64 a + b) = to_uint64 (a + b).
Proof. unfold to_uint64. apply Zplus_mod_idemp_l. Qed.

Lemma tally_nonneg (p : Sample -> bool) (samples : list Sample) :
  0 <= tally p samples.
Proof.
  induction samples as [| s rest IH]; cbn [tally]; [lia |].
  destruct (p s); lia.
Qed.

Lemma tally_le_length (p : Sample -> bool) (samples : list Sample) :
  tally p samples <= Z.of_nat (length samples).
Proof.
  induction samples as [| s rest IH]; cbn [tally length]; [lia |].
  rewrite Nat2Z.inj_succ. destruct (p s); lia.
Qed.

Lemma tally_contended_le (samples : list Sample) :
  tally contended_success samples <= tally wasAcquired samples.
Proof.
  induction samples as [| s rest IH]; cbn [tally]; [lia |].
  unfold contended_success at 1.
  destruct (wasAcquired s), (wasContended s); cbn [andb]; lia.
Qed.

Lemma elapsed_where_bounds (p : Sample -> bool) (samples : list Sample) :
  Forall (fun s => 0 <= elapsedTime s) samples ->
  0 <= elapsed_where p samples <= total_elapsed samples.
Proof.
  unfold total_elapsed.
  induction 1 as [| s rest Hs Hrest IH]; cbn [elapsed_where]; [lia |].
  destruct (p s); lia.
Qed.

Lemma MXUserAcquisitionSample_uint64 `{FloatOps}
    (st : MXUserAcquisitionStats) (s : Sample) :
  uint64_counters st ->
  uint64_counters
    (MXUserAcquisitionSample st (wasAcquired s) (wasContended s)
                             (elapsedTime s)).
Proof.
  unfold uint64_counters. intros (Ha & Hs & Hc & Hst & Htt). simpl.
  destruct (wasAcquired s), (wasContended s); cbn [andb];
    (split; [| split; [| split; [| split]]]);
    try assumption; apply to_uint64_range.
Qed.

(** The counters after a sequence of samples are the unbounded tallies,
    reduced modulo 2^64. *)
Lemma sample_all_counters `{FloatOps} (samples : list Sample) :
  forall st : MXUserAcquisitionStats,
    uint64_counters st ->
    let st' := sample_all st samples in
    numAttempts st' =
      to_uint64 (numAttempts st + Z.of_nat (length samples)) /\
    numSuccesses st' =
      to_uint64 (numSuccesses st + tally wasAcquired samples) /\
    numSuccessesContended st' =
      to_uint64 (numSuccessesContended st + tally contended_success samples) /\
    successContentionTime st' =
      to_uint64 (successContentionTime st +
                 elapsed_where contended_success samples) /\
    totalContentionTime st' =
      to_uint64 (totalContentionTime st + total_elapsed samples).
Proof.
  unfold total_elapsed.
  induction samples as [| s rest IH]; intros st Hst; cbv zeta.
  - destruct Hst as (Ha & Hs & Hc & Hsc & Htc). simpl.
    rewrite !Z.add_0_r. rewrite !to_uint64_small by assumption.
    repeat split.
  - unfold sample_all. cbn [fold_left].
    fold (sample_all
            (MXUserAcquisitionSample st (wasAcquired s) (wasContended s)
                                     (elapsedTime s)) rest).
    destruct (IH _ (MXUserAcquisitionSample_uint64 st s Hst))
      as (Ha & Hs & Hc & Hsc & Htc).
    rewrite Ha, Hs, Hc, Hsc, Htc. clear Ha Hs Hc Hsc Htc.
    destruct Hst as (Ha & Hs & Hc & Hsc & Htc).
    cbn [numAttempts numSuccesses numSuccessesContended
         successContentionTime totalContentionTime
         MXUserAcquisitionSample length tally elapsed_where].
    change (contended_success s) with (wasAcquired s && wasContended s).
    rewrite Nat2Z.inj_succ.
    destruct (wasAcquired s), (wasContended s); cbn [andb];
      rewrite ?to_uint64_add_l;
      repeat split; f_equal; lia.
Qed.

(** C8, as the modelled update rule has it.  Starting from zeroed
    statistics, after any sequence of samples whose count and whose summed
    elapsed time both stay below 2^64, so that no [uint64] counter wraps
    around, [numAttempts >= numSuccesses >= numSuccessesContended >= 0]
    and [successContentionTime <= totalContentionTime]. *)
Theorem stats_conserved_without_overflow `{FloatOps}
    (samples : list Sample) :
  Forall (fun s => 0 <= elapsedTime s) samples ->
  Z.of_nat (length samples) < 2 ^ 64 ->
  total_elapsed samples < 2 ^ 64 ->
  stats_conserved (sample_all MXUserAcquisitionStatsSetUp samples).
Proof.
  intros Hpos Hlen Htotal.
  assert (Hzero : uint64_counters MXUserAcquisitionStatsSetUp)
    by (unfold uint64_counters, is_uint64; simpl; lia).
  destruct (sample_all_counters samples _ Hzero)
    as (Ha & Hs & Hc & Hsc & Htc).
  pose proof (tally_nonneg wasAcquired samples) as Hs0.
  pose proof (tally_nonneg contended_success samples) as Hc0.
  pose proof (tally_le_length wasAcquired samples) as Hs1.
  pose proof (tally_contended_le samples) as Hc1.
  pose proof (elapsed_where_bounds contended_success samples Hpos) as He.
  unfold stats_conserved.
  rewrite Ha, Hs, Hc, Hsc, Htc. simpl.
  rewrite !to_uint64_small by (unfold is_uint64; lia).
  lia.
Qed.

Lemma stats_conserved_without_overflow_witness :
  stats_conserved
    (@sample_all ExactSquares MXUserAcquisitionStatsSetUp
       [mkSample true true 7; mkSample false true 5; mkSample true false 0]).
Proof.
  apply (@stats_conserved_without_overflow ExactSquares).
  - repeat constructor; simpl; lia.
  - simpl. lia.
  - vm_compute. reflexivity.
Defined.

(** C8 as stated fails once a [uint64] counter wraps: a contended
    success that waited 2^63 followed by a failed attempt that waited
    2^63 leaves [totalContentionTime] at 0 below a
    [successContentionTime] of 2^63. *)
Lemma stats_conservation_overflow :
  Forall (fun s => is_uint64 (elapsedTime s))
         [mkSample true true (2 ^ 63); mkSample false false (2 ^ 63)] /\
  ~ stats_conserved
      (@sample_all ExactSquares MXUserAcquisitionStatsSetUp
         [mkSample true true (2 ^ 63); mkSample false false (2 ^ 63)]).
Proof.
  split.
  - repeat constructor; vm_compute; discriminate.
  - unfold stats_conserved. vm_compute.
    intros (_ & _ & _ & Hle). apply Hle. reflexivity.
Qed.

(* ================================================================== *)
(** * Further properties of the lock core *)

(* ------------------------------------------------------------------ *)
(** ** Release and the count helpers at their edges *)

(** X1. [MXRecLockRelease] on a lock whose count is 0, or is
    [MXUSER_MAX_REC_DEPTH] or more, fails its assertion: the lock is left
    as it was and the native mutex is not called. *)
Theorem MXRecLockRelease_out_of_range `{Build} `{NativeMutex}
    (self : MXThreadID) (w : World) :
  MXRecLockCount (lock w) = 0 \/
  MXUSER_MAX_REC_DEPTH <= MXRecLockCount (lock w) ->
  MXRecLockRelease self w = Fatal AssertFailed w.
Proof.
  destruct w as [[n rc owner] cs]. unfold MXRecLockCount. simpl.
  intros Hout. lock_unfold. unfold MXRecLockCount. simpl.
  assert (Hcond : (0 <? to_uint32 rc) &&
                  (to_uint32 rc <? MXUSER_MAX_REC_DEPTH) = false).
  { destruct Hout as [Hz | Hge].
    - rewrite Hz. reflexivity.
    - apply andb_false_iff. right. now apply Z.ltb_ge. }
  rewrite Hcond. reflexivity.
Qed.

Lemma MXRecLockRelease_out_of_range_witness :
  @MXRecLockRelease DebugBuild Scripted 5 (raw_world [0] 0 5) =
    Fatal AssertFailed (raw_world [0] 0 5).
Proof.
  apply (@MXRecLockRelease_out_of_range DebugBuild Scripted 5
           (raw_world [0] 0 5)).
  left. reflexivity.
Defined.

(** X2. [MXRecLockRelease] does not look at who calls it.  On a lock
    held more than once (count from 2 to [MXUSER_MAX_REC_DEPTH - 1]) any
    two threads get the same outcome, the owner or not: the count drops
    by one and the owner stays. *)
Theorem MXRecLockRelease_any_caller `{Build} `{NativeMutex}
    (a b : MXThreadID) (w : World) :
  1 < referenceCount (lock w) < MXUSER_MAX_REC_DEPTH ->
  MXRecLockRelease a w = MXRecLockRelease b w /\
  MXRecLockRelease a w =
    Done tt (mkWorld (mkMXRecLock (nativeLock (lock w))
                                  (referenceCount (lock w) - 1)
                                  (nativeThreadID (lock w)))
                     (calls w)).
Proof.
  destruct w as [[n rc owner] cs]. simpl. intros Hrc.
  rewrite !MXRecLockRelease_run by lia.
  replace (rc - 1 =? 0) with false by (symmetry; apply Z.eqb_neq; lia).
  split; reflexivity.
Qed.

Lemma MXRecLockRelease_any_caller_witness :
  @MXRecLockRelease DebugBuild Scripted 5 (raw_world [] 3 5) =
  @MXRecLockRelease DebugBuild Scripted 9 (raw_world [] 3 5).
Proof.
  refine (proj1 (@MXRecLockRelease_any_caller DebugBuild Scripted 5 9
                   (raw_world [] 3 5) _)).
  vm_compute. split; reflexivity.
Defined.

(** X3. [MXRecLockDecCount] never takes the count below 0, [count]
    being a [uint32] value: asked to remove more than the lock holds, it
    fails its assertion and leaves the lock as it was; and whenever it
    returns, the lock held at least [count] acquisitions and holds
    exactly [count] fewer. *)
Theorem MXRecLockDecCount_underflow `{NativeMutex} (count : Z) (w : World) :
  0 <= count < 2 ^ 32 ->
  (MXRecLockCount (lock w) < count ->
   MXRecLockDecCount count w = Fatal AssertFailed w) /\
  (forall w' : World,
     MXRecLockDecCount count w = Done tt w' ->
     count <= MXRecLockCount (lock w) /\
     MXRecLockCount (lock w') = MXRecLockCount (lock w) - count).
Proof.
  destruct w as [[n rc owner] cs]. unfold MXRecLockCount.
  cbn [lock referenceCount]. intros Hcount.
  pose proof (to_uint32_range rc) as Hrange.
  split.
  - intros Hlt. lock_unfold. simpl.
    rewrite (to_uint32_small count) by lia.
    replace (count <=? to_uint32 rc) with false
      by (symmetry; apply Z.leb_gt; lia).
    reflexivity.
  - intros w'. lock_unfold. cbn [lock calls referenceCount].
    rewrite (to_uint32_small count) by lia.
    destruct (Z.leb_spec count (to_uint32 rc)) as [Hle | Hgt];
      [| discriminate].
    assert (Hsmall : to_uint32 (to_uint32 rc - count) = to_uint32 rc - count)
      by (apply to_uint32_small; lia).
    cbn [lock calls referenceCount].
    unfold MXRecLockCount, MXRecLockSetNoOwner, set_referenceCount,
      set_nativeThreadID.
    cbn [lock calls referenceCount nativeLock nativeThreadID].
    match goal with
    | |- context [if ?c then _ else _] => destruct c
    end;
      unfold ret; cbn [lock calls referenceCount nativeLock nativeThreadID];
      intros Hrun; inversion Hrun; subst; cbn [lock referenceCount];
      rewrite to_uint32_to_int, !Hsmall;
      (split; [assumption | reflexivity]).
Qed.

Lemma MXRecLockDecCount_underflow_witness :
  @MXRecLockDecCount Scripted 3 (raw_world [] 2 5) =
    Fatal AssertFailed (raw_world [] 2 5).
Proof.
  refine (proj1 (@MXRecLockDecCount_underflow Scripted 3
                   (raw_world [] 2 5) _) _).
  - lia.
  - reflexivity.
Defined.

(** What [MXRecLockDecCount] does when the lock holds at least [count]
    acquisitions. *)
Lemma MXRecLockDecCount_run `{NativeMutex}
    (count : Z) (n : NativeLock) (rc : Z) (owner : MXThreadID)
    (cs : list NativeCall) :
  0 <= count <= rc -> rc < 2 ^ 31 ->
  MXRecLockDecCount count (mkWorld (mkMXRecLock n rc owner) cs) =
    Done tt (mkWorld (mkMXRecLock n (rc - count)
                        (if rc - count =? 0 then MXUSER_INVALID_OWNER
                         else owner))
                     cs).
Proof.
  intros Hcount Hint.
  assert (Hrc : to_uint32 rc = rc) by (apply to_uint32_small; lia).
  assert (Hdiff : to_uint32 (rc - count) = rc - count)
    by (apply to_uint32_small; lia).
  assert (Hint' : to_int (rc - count) = rc - count)
    by (apply to_int_small; lia).
  lock_unfold. cbn [lock calls referenceCount]. rewrite Hrc.
  rewrite (to_uint32_small count) by lia.
  replace (count <=? rc) with true by (symmetry; apply Z.leb_le; lia).
  cbn [lock calls referenceCount]. rewrite Hdiff, Hint'.
  unfold MXRecLockCount, set_referenceCount.
  cbn [lock calls referenceCount nativeLock nativeThreadID].
  rewrite Hdiff.
  destruct (rc - count =? 0); reflexivity.
Qed.

Lemma MXRecLockIncCount_by `{NativeMutex}
    (self : MXThreadID) (count : Z) (n : NativeLock) (rc : Z)
    (owner : MXThreadID) :
  MXRecLockIncCount self count (mkMXRecLock n rc owner) =
    mkMXRecLock n (to_int (to_uint32 (to_uint32 rc + count)))
                (if to_uint32 rc =? 0 then self else owner).
Proof.
  unfold MXRecLockIncCount, MXRecLockCount, MXRecLockSetOwner. simpl.
  destruct (to_uint32 rc =? 0); reflexivity.
Qed.

(** X4. Dropping [count] acquisitions with [MXRecLockDecCount] and
    putting them back with [MXRecLockIncCount] restores the lock of the
    thread that holds it, count and owner, also when the whole depth is
    dropped and the owner is cleared in between.  No native call is
    made. *)
Theorem MXRecLockDecCount_IncCount `{NativeMutex}
    (self : MXThreadID) (count : Z) (w : World) :
  nativeThreadID (lock w) = self ->
  0 <= count <= referenceCount (lock w) ->
  referenceCount (lock w) < 2 ^ 31 ->
  (MXRecLockDecCount count ;; modify (MXRecLockIncCount self count)) w =
    Done tt w.
Proof.
  destruct w as [[n rc owner] cs]. cbn [lock referenceCount nativeThreadID].
  intros Hown Hcount Hint. subst owner.
  unfold bind. rewrite MXRecLockDecCount_run by assumption.
  unfold modify. cbn [lock calls].
  rewrite MXRecLockIncCount_by.
  rewrite (to_uint32_small (rc - count)) by lia.
  replace (rc - count + count) with rc by lia.
  rewrite (to_uint32_small rc), to_int_small by lia.
  destruct (rc - count =? 0); reflexivity.
Qed.

Lemma MXRecLockDecCount_IncCount_witness :
  (@MXRecLockDecCount Scripted 3 ;;
   modify (@MXRecLockIncCount Scripted 5 3)) (raw_world [] 3 5) =
    Done tt (raw_world [] 3 5).
Proof.
  apply (@MXRecLockDecCount_IncCount Scripted 5 3 (raw_world [] 3 5)).
  - reflexivity.
  - simpl. lia.
  - reflexivity.
Defined.

(* ------------------------------------------------------------------ *)
(** ** What a completed acquisition leaves behind *)

(** Every way [MXRecLockAcquire] can return. *)
Lemma MXRecLockAcquire_done `{Build} `{NativeMutex}
    (self : MXThreadID) (n : NativeLock) (rc : Z) (owner : MXThreadID)
    (cs : list NativeCall) (c : bool) (w' : World) :
  MXRecLockAcquire self (mkWorld (mkMXRecLock n rc owner) cs) = Done c w' ->
  to_uint32 rc < MXUSER_MAX_REC_DEPTH /\
  referenceCount (lock w') = to_uint32 rc + 1 /\
  nativeThreadID (lock w') = self /\
  ((0 < to_uint32 rc /\ owner = self /\ c = false /\
    calls w' = cs /\ nativeLock (lock w') = n) \/
   (rc = 0 /\
    calls w' = cs ++ CallTryAcquire :: (if c then [CallAcquire] else []))).
Proof.
  assert (Hmax : MXUSER_MAX_REC_DEPTH = 16) by reflexivity.
  pose proof (to_uint32_range rc) as Hrange.
  destruct (Z.eq_dec owner self) as [Hown | Hown];
    [destruct (Z.eq_dec (to_uint32 rc) 0) as [Hz | Hz] |].
  - rewrite MXRecLockAcquire_native_run by (now left).
    cbv zeta. unfold finish_native_acquire.
    destruct (Z.eqb_spec rc 0) as [Hrc | Hrc].
    + subst rc.
      repeat match goal with
             | |- context [if ?b then _ else _] => destruct b
             end;
        intros Hrun; inversion Hrun; subst; simpl;
        repeat split; try lia; right; split; reflexivity.
    + repeat match goal with
             | |- context [if ?b then _ else _] => destruct b
             end;
        intros Hrun; discriminate Hrun.
  - subst owner. rewrite MXRecLockAcquire_reentrant_run by lia.
    destruct (Z.ltb_spec (to_uint32 rc) MXUSER_MAX_REC_DEPTH) as [Hlt | Hge];
      intros Hrun; inversion Hrun; subst; simpl.
    rewrite (to_uint32_small (to_uint32 rc + 1)) by lia.
    rewrite to_int_small by lia.
    repeat split; try lia. left. repeat split. lia.
  - rewrite MXRecLockAcquire_native_run by (now right).
    cbv zeta. unfold finish_native_acquire.
    destruct (Z.eqb_spec rc 0) as [Hrc | Hrc].
    + subst rc.
      repeat match goal with
             | |- context [if ?b then _ else _] => destruct b
             end;
        intros Hrun; inversion Hrun; subst; simpl;
        repeat split; try lia; right; split; reflexivity.
    + repeat match goal with
             | |- context [if ?b then _ else _] => destruct b
             end;
        intros Hrun; discriminate Hrun.
Qed.

(** Every way [MXRecLockAcquire] can return among other threads. *)
Lemma MXRecLockAcquire_shared_done `{Build} `{NativeMutex} `{OtherThreads}
    (self : MXThreadID) (n : NativeLock) (rc : Z) (owner : MXThreadID)
    (cs : list NativeCall) (c : bool) (w' : World) :
  MXRecLockAcquire_shared self (mkWorld (mkMXRecLock n rc owner) cs) =
    Done c w' ->
  nativeThreadID (lock w') = self /\
  ((0 < to_uint32 rc /\ owner = self /\
    to_uint32 rc < MXUSER_MAX_REC_DEPTH /\ c = false /\
    referenceCount (lock w') = to_uint32 rc + 1 /\
    calls w' = cs /\ nativeLock (lock w') = n) \/
   ((to_uint32 rc = 0 \/ owner <> self) /\
    referenceCount (lock w') = 1 /\
    calls w' = cs ++ CallTryAcquire :: (if c then [CallAcquire] else []))).
Proof.
  assert (Hmax : MXUSER_MAX_REC_DEPTH = 16) by reflexivity.
  pose proof (to_uint32_range rc) as Hrange.
  assert (Hnative :
            to_uint32 rc = 0 \/ owner <> self ->
            MXRecLockAcquire_shared self
              (mkWorld (mkMXRecLock n rc owner) cs) = Done c w' ->
            nativeThreadID (lock w') = self /\
            referenceCount (lock w') = 1 /\
            calls w' =
              cs ++ CallTryAcquire :: (if c then [CallAcquire] else [])).
  { intros Hfree.
    rewrite MXRecLockAcquire_shared_native_run by assumption.
    cbv zeta. unfold finish_native_acquire.
    repeat match goal with
           | |- context [if ?b then _ else _] => destruct b
           end;
      intros Hrun; inversion Hrun; subst; simpl; repeat split. }
  destruct (Z.eq_dec owner self) as [Hown | Hown];
    [destruct (Z.eq_dec (to_uint32 rc) 0) as [Hz | Hz] |].
  - intros Hrun. destruct (Hnative (or_introl Hz) Hrun) as (Ho & Hr & Hc).
    split; [exact Ho |]. right. repeat split; auto.
  - subst owner. rewrite MXRecLockAcquire_shared_reentrant_run by lia.
    destruct (Z.ltb_spec (to_uint32 rc) MXUSER_MAX_REC_DEPTH) as [Hlt | Hge];
      intros Hrun; inversion Hrun; subst; simpl.
    rewrite (to_uint32_small (to_uint32 rc + 1)) by lia.
    rewrite to_int_small by lia.
    split; [reflexivity |]. left. repeat split; lia.
  - intros Hrun. destruct (Hnative (or_intror Hown) Hrun) as (Ho & Hr & Hc).
    split; [exact Ho |]. right. repeat split; auto.
Qed.



(** X6. The contended flag [MXRecLockAcquire] returns tells which
    native calls it made, also among other threads: contended exactly
    when the blocking native acquire was made, after the try; not
    contended with no native call at all when the caller held the lock
    on entry, and with one native try when it did not. *)
Theorem MXRecLockAcquire_contended_flag
    `{Build} `{NativeMutex} `{OtherThreads}
    (self : MXThreadID) (w w' : World) (c : bool) :
  MXRecLockAcquire_shared self w = Done c w' ->
  calls w' =
    calls w ++
      (if c then [CallTryAcquire; CallAcquire]
       else if negb (MXRecLockCount (lock w) =? 0) &&
               MXRecLockIsOwner self (lock w)
            then []
            else [CallTryAcquire]).
Proof.
  destruct w as [[n rc owner] cs]. intros Hrun.
  pose proof (to_uint32_range rc) as Hrange.
  unfold MXRecLockCount, MXRecLockIsOwner.
  cbn [lock calls referenceCount nativeThreadID].
  destruct (MXRecLockAcquire_shared_done self n rc owner cs c w' Hrun)
    as (_ & [(Hpos & Ho & _ & Hc & _ & Hcalls & _) | (Hfree & _ & Hcalls)]).
  - subst c owner.
    replace (to_uint32 rc =? 0) with false
      by (symmetry; apply Z.eqb_neq; lia).
    rewrite Z.eqb_refl. simpl. now rewrite app_nil_r.
  - rewrite Hcalls. destruct c; [reflexivity |].
    replace (negb (to_uint32 rc =? 0) && (owner =? self)) with false;
      [reflexivity |].
    symmetry. destruct Hfree as [Hz | Hne].
    + rewrite Hz. reflexivity.
    + apply Z.eqb_neq in Hne. rewrite Hne. apply andb_false_r.
Qed.

Lemma MXRecLockAcquire_contended_flag_witness :
  @MXRecLockAcquire_shared DebugBuild Scripted HolderReleased 5
    (raw_world [0] 3 9) =
    Done false (@mkWorld Scripted (@mkMXRecLock Scripted [] 1 5)
                  [CallTryAcquire]) /\
  calls (@mkWorld Scripted (@mkMXRecLock Scripted [] 1 5) [CallTryAcquire]) =
    calls (raw_world [0] 3 9) ++ [CallTryAcquire].
Proof.
  assert (Hrun : @MXRecLockAcquire_shared DebugBuild Scripted HolderReleased 5
                   (raw_world [0] 3 9) =
                 Done false (@mkWorld Scripted
                               (@mkMXRecLock Scripted [] 1 5)
                               [CallTryAcquire]))
    by reflexivity.
  split; [exact Hrun |].
  exact (@MXRecLockAcquire_contended_flag DebugBuild Scripted
           HolderReleased 5 (raw_world [0] 3 9) _ false Hrun).
Defined.

(* ------------------------------------------------------------------ *)
(** ** Round trips *)

(** Releases that stop short of the last one. *)
Lemma release_times_partial `{Build} `{NativeMutex}
    (self : MXThreadID) (n : NativeLock) (owner : MXThreadID)
    (cs : list NativeCall) (k : nat) :
  forall rc : Z,
    Z.of_nat k < rc -> rc < MXUSER_MAX_REC_DEPTH ->
    release_times self k (mkWorld (mkMXRecLock n rc owner) cs) =
      Done tt (mkWorld (mkMXRecLock n (rc - Z.of_nat k) owner) cs).
Proof.
  induction k as [| k IH]; intros rc Hk Hbound.
  - simpl. unfold ret. now rewrite Z.sub_0_r.
  - cbn [release_times]. unfold bind at 1.
    rewrite MXRecLockRelease_run by lia.
    replace (rc - 1 =? 0) with false by (symmetry; apply Z.eqb_neq; lia).
    rewrite IH by lia.
    replace (rc - 1 - Z.of_nat k) with (rc - Z.of_nat (S k)) by lia.
    reflexivity.
Qed.

(** X7. Nested use by the owner is invisible from outside: on a lock the
    caller holds, [k] acquisitions followed by [k] releases, with the
    depth staying below [MXUSER_MAX_REC_DEPTH], all return, none
    contended, and leave the lock structure and the native mutex exactly
    as they were, without a native call. *)
Theorem acquire_release_nested `{Build} `{NativeMutex}
    (self : MXThreadID) (k : nat) (w : World) :
  nativeThreadID (lock w) = self ->
  0 < referenceCount (lock w) ->
  referenceCount (lock w) + Z.of_nat k < MXUSER_MAX_REC_DEPTH ->
  (exists w1 : World,
     acquire_times self k w = Done (repeat false k) w1 /\
     release_times self k w1 = Done tt w) /\
  (acquire_times self k ;; release_times self k) w = Done tt w.
Proof.
  destruct w as [[n rc owner] cs]. cbn [lock referenceCount nativeThreadID].
  intros Hown Hpos Hbound. subst owner.
  assert (Hacq := acquire_times_reentrant self n cs k rc Hpos).
  assert (Hrel := release_times_partial self n self cs k (rc + Z.of_nat k)).
  replace (rc + Z.of_nat k - Z.of_nat k) with rc in Hrel by lia.
  split.
  - eexists. split; [apply Hacq; lia | apply Hrel; lia].
  - unfold bind. rewrite Hacq by lia. apply Hrel; lia.
Qed.

Lemma acquire_release_nested_witness :
  (@acquire_times DebugBuild Scripted 5 4 ;;
   @release_times DebugBuild Scripted 5 4) (raw_world [7] 2 5) =
    Done tt (raw_world [7] 2 5).
Proof.
  refine (proj2 (@acquire_release_nested DebugBuild Scripted 5 4
                   (raw_world [7] 2 5) _ _ _)).
  - reflexivity.
  - reflexivity.
  - reflexivity.
Defined.

(** X8. A successful [MXRecLockTryAcquire] on a free lock is undone by
    one [MXRecLockRelease]: the count is 0 again and the owner is the
    no-owner value, after one native try and one native release (which a
    debug build requires to succeed). *)
Theorem MXRecLockTryAcquire_Release `{Build} `{NativeMutex}
    (self : MXThreadID) (w : World) :
  referenceCount (lock w) = 0 ->
  try_result self w = 0 ->
  (vmx86_debug = true ->
   fst (mutex_unlock self
          (snd (mutex_trylock self (nativeLock (lock w))))) = 0) ->
  (MXRecLockTryAcquire self ;; MXRecLockRelease self) w =
    Done tt
      (mkWorld
         (mkMXRecLock
            (snd (mutex_unlock self
                    (snd (mutex_trylock self (nativeLock (lock w))))))
            0 MXUSER_INVALID_OWNER)
         (calls w ++ [CallTryAcquire; CallRelease])).
Proof.
  destruct w as [[n rc owner] cs]. unfold try_result.
  cbn [lock calls referenceCount nativeLock].
  intros -> Htry Hok.
  unfold bind. rewrite MXRecLockTryAcquire_run. cbv zeta.
  rewrite Htry. simpl (0 =? 0). cbv iota.
  rewrite MXRecLockIncCount_fields.
  change (to_int (to_uint32 (to_uint32 0 + 1))) with 1.
  change (to_uint32 0 =? 0) with true. cbv iota.
  change (MXRecLockCount
            (mkMXRecLock (snd (mutex_trylock self n)) 1 self)) with 1.
  change ((0 <? 1) && (1 <? MXUSER_MAX_REC_DEPTH)) with true.
  change (1 <? MXUSER_MAX_REC_DEPTH) with true. cbv iota.
  rewrite MXRecLockRelease_run by (unfold MXUSER_MAX_REC_DEPTH; lia).
  simpl (1 - 1 =? 0). cbv iota zeta. simpl (1 - 1).
  rewrite <- app_assoc. simpl (_ ++ _).
  destruct vmx86_debug; simpl; [rewrite Hok by reflexivity |];
    reflexivity.
Qed.

Lemma MXRecLockTryAcquire_Release_witness :
  (@MXRecLockTryAcquire DebugBuild Scripted 5 ;;
   @MXRecLockRelease DebugBuild Scripted 5) (raw_world [0; 0] 0 (-1)) =
    Done tt
      (@mkWorld Scripted
         (@mkMXRecLock Scripted [] 0 (@MXUSER_INVALID_OWNER Scripted))
         [CallTryAcquire; CallRelease]).
Proof.
  refine (@MXRecLockTryAcquire_Release DebugBuild Scripted 5
            (raw_world [0; 0] 0 (-1)) _ _ _);
    reflexivity.
Defined.

(* ------------------------------------------------------------------ *)
(** ** What every sequence of operations keeps *)

(** [MXRecLockRelease] returns only from a count its assertion accepts. *)
Lemma MXRecLockRelease_done `{Build} `{NativeMutex}
    (self : MXThreadID) (w w' : World) :
  MXRecLockRelease self w = Done tt w' ->
  0 < MXRecLockCount (lock w) < MXUSER_MAX_REC_DEPTH.
Proof.
  destruct w as [[n rc owner] cs]. unfold MXRecLockCount.
  cbn [lock referenceCount].
  destruct (Z.ltb_spec 0 (to_uint32 rc)) as [Hpos | Hpos];
    [destruct (Z.ltb_spec (to_uint32 rc) MXUSER_MAX_REC_DEPTH)
       as [Hlt | Hlt] |].
  - intros _. split; assumption.
  - lock_unfold. unfold MXRecLockCount. simpl.
    replace (to_uint32 rc <? MXUSER_MAX_REC_DEPTH) with false
      by (symmetry; apply Z.ltb_ge; lia).
    rewrite andb_false_r. discriminate.
  - lock_unfold. unfold MXRecLockCount. simpl.
    replace (0 <? to_uint32 rc) with false
      by (symmetry; apply Z.ltb_ge; lia).
    discriminate.
Qed.

(** Every way [MXRecLockTryAcquire] can return. *)
Lemma MXRecLockTryAcquire_done `{Build} `{NativeMutex}
    (self : MXThreadID) (n : NativeLock) (rc : Z) (owner : MXThreadID)
    (cs : list NativeCall) (acquired : bool) (w' : World) :
  MXRecLockTryAcquire self (mkWorld (mkMXRecLock n rc owner) cs) =
    Done acquired w' ->
  (acquired = true /\
   0 < MXRecLockCount (lock w') < MXUSER_MAX_REC_DEPTH /\
   referenceCount (lock w') = to_int (to_uint32 (to_uint32 rc + 1)) /\
   nativeThreadID (lock w') = (if to_uint32 rc =? 0 then self else owner)) \/
  (acquired = false /\
   referenceCount (lock w') = rc /\ nativeThreadID (lock w') = owner).
Proof.
  rewrite MXRecLockTryAcquire_run. cbv zeta.
  rewrite MXRecLockIncCount_fields.
  destruct (fst (mutex_trylock self n) =? 0).
  - match goal with
    | |- context [if ?c then Done _ _ else _] => destruct c eqn:Hassert
    end; intros Hrun; inversion Hrun; subst.
    left. apply andb_prop in Hassert. destruct Hassert as [Hpos Hlt].
    apply Z.ltb_lt in Hpos. apply Z.ltb_lt in Hlt.
    repeat split; assumption.
  - destruct (vmx86_debug && negb (fst (mutex_trylock self n) =? EBUSY));
      intros Hrun; inversion Hrun; subst.
    right. repeat split.
Qed.

(** One completed operation keeps the lock consistent. *)
Lemma run_op_consistent `{Build} `{NativeMutex}
    (op : LockOp) (w w' : World) :
  lock_consistent (lock w) ->
  run_op op w = Done tt w' ->
  lock_consistent (lock w').
Proof.
  assert (Hmax : MXUSER_MAX_REC_DEPTH = 16) by reflexivity.
  unfold lock_consistent. intros [Hrange Hfree].
  destruct op as [self | self | self]; cbn [run_op].
  - unfold bind, ret.
    destruct (MXRecLockAcquire self w) as [c w1 | f w1] eqn:Hrun;
      intros Heq; inversion Heq; subst.
    destruct w as [[n rc owner] cs]. cbn [lock referenceCount] in Hrange.
    destruct (MXRecLockAcquire_done self n rc owner cs c w' Hrun)
      as (Hlt & Hrc & _).
    rewrite (to_uint32_small rc) in Hlt, Hrc by lia.
    rewrite Hrc. split; [lia | intros Habs; lia].
  - unfold bind, ret.
    destruct (MXRecLockTryAcquire self w) as [b w1 | f w1] eqn:Hrun;
      intros Heq; inversion Heq; subst.
    destruct w as [[n rc owner] cs].
    cbn [lock referenceCount nativeThreadID] in Hrange, Hfree.
    destruct (MXRecLockTryAcquire_done self n rc owner cs b w' Hrun)
      as [(_ & Hcount & Hrc & _) | (_ & Hrc & Hown)].
    + rewrite (to_uint32_small rc) in Hrc by lia.
      rewrite (to_uint32_small (rc + 1)), to_int_small in Hrc by lia.
      unfold MXRecLockCount in Hcount. rewrite Hrc in Hcount.
      rewrite to_uint32_small in Hcount by lia.
      rewrite Hrc. split; [lia | intros Habs; lia].
    + rewrite Hrc, Hown. split; assumption.
  - intros Hrun.
    pose proof (MXRecLockRelease_done self w w' Hrun) as Hcount.
    destruct w as [[n rc owner] cs].
    unfold MXRecLockCount in Hcount.
    cbn [lock referenceCount nativeThreadID] in Hrange, Hfree, Hcount.
    rewrite (to_uint32_small rc) in Hcount by lia.
    rewrite MXRecLockRelease_run in Hrun by lia. cbv zeta in Hrun.
    destruct (Z.eqb_spec (rc - 1) 0) as [Hz | Hz].
    + destruct (vmx86_debug && negb (fst (mutex_unlock self n) =? 0));
        inversion Hrun; subst; simpl. split; [lia | reflexivity].
    + inversion Hrun; subst; simpl. split; [lia | intros Habs; lia].
Qed.

Lemma run_ops_consistent `{Build} `{NativeMutex} (ops : list LockOp) :
  forall w w' : World,
    lock_consistent (lock w) ->
    run_ops ops w = Done tt w' ->
    lock_consistent (lock w').
Proof.
  induction ops as [| op rest IH]; intros w w' Hinv; cbn [run_ops].
  - unfold ret. intros Heq. inversion Heq; subst. exact Hinv.
  - unfold bind.
    destruct (run_op op w) as [[] w1 | f w1] eqn:Hop; [| discriminate].
    intros Hrest. apply (IH w1 w'); [| exact Hrest].
    exact (run_op_consistent op w w1 Hinv Hop).
Qed.

(** X9. After a successful [MXRecLockInit], whatever sequence of
    [MXRecLockAcquire], [MXRecLockTryAcquire] and [MXRecLockRelease]
    calls, by whatever threads, runs to completion, the count is between
    0 and [MXUSER_MAX_REC_DEPTH] inclusive and a lock with count 0 has
    the no-owner value as its owner. *)
Theorem lock_consistent_after_init `{Build} `{NativeMutex}
    (ops : list LockOp) (w0 w w' : World) :
  MXRecLockInit w0 = Done true w ->
  run_ops ops w = Done tt w' ->
  lock_consistent (lock w').
Proof.
  intros Hinit. apply run_ops_consistent.
  destruct w0 as [[n rc owner] cs]. revert Hinit. lock_unfold. simpl.
  destruct (fst (mutex_init n) =? 0); simpl; intros Heq;
    inversion Heq; subst.
  unfold lock_consistent, MXUSER_MAX_REC_DEPTH. simpl.
  split; [lia | reflexivity].
Qed.

Lemma lock_consistent_after_init_witness :
  lock_consistent
    (lock (@mkWorld Scripted
             (@mkMXRecLock Scripted [] 1 5)
             [CallCreate; CallTryAcquire; CallAcquire; CallTryAcquire])).
Proof.
  refine (@lock_consistent_after_init DebugBuild Scripted
            [OpAcquire 5; OpAcquire 5; OpTryAcquire 9; OpRelease 5]
            (raw_world [0; 16; 0; 16] 7 42)
            (@mkWorld Scripted
               (@mkMXRecLock Scripted [16; 0; 16] 0
                  (@MXUSER_INVALID_OWNER Scripted))
               [CallCreate])
            _ _ _);
    reflexivity.
Defined.



(* ------------------------------------------------------------------ *)
(** ** The Windows variant *)

(** X11. In the [_WIN32] variant no locking operation ever ends in
    [Panic], with or without [vmx86_debug]: the critical section calls
    report nothing but success or busy, so the only fatal endings left
    are failed assertions; and [MXRecLockDestroy] always returns. *)
Theorem Win32_never_panics `{Build} `{CriticalSectionAPI}
    (self : MXThreadID) (w : @World Win32Mutex) :
  panicked (@MXRecLockAcquire _ Win32Mutex self w) = false /\
  panicked (@MXRecLockTryAcquire _ Win32Mutex self w) = false /\
  panicked (@MXRecLockRelease _ Win32Mutex self w) = false /\
  exists w' : @World Win32Mutex,
    @MXRecLockDestroy _ Win32Mutex w = Done tt w'.
Proof.
  destruct w as [[n rc owner] cs].
  split; [| split; [| split]].
  - destruct (Z.eq_dec owner self) as [Hown | Hown];
      [destruct (Z.eq_dec (to_uint32 rc) 0) as [Hz | Hz] |].
    + rewrite MXRecLockAcquire_native_run by (now left).
      cbn. destruct (TryEnterCriticalSection self n) as [[] cs'];
        cbn; rewrite ?andb_false_r; unfold finish_native_acquire;
        destruct (rc =? 0); reflexivity.
    + subst owner. pose proof (to_uint32_range rc).
      rewrite MXRecLockAcquire_reentrant_run by lia.
      destruct (to_uint32 rc <? MXUSER_MAX_REC_DEPTH); reflexivity.
    + rewrite MXRecLockAcquire_native_run by (now right).
      cbn. destruct (TryEnterCriticalSection self n) as [[] cs'];
        cbn; rewrite ?andb_false_r; unfold finish_native_acquire;
        destruct (rc =? 0); reflexivity.
  - rewrite MXRecLockTryAcquire_run.
    cbn. destruct (TryEnterCriticalSection self n) as [[] cs']; cbn.
    + match goal with
      | |- context [if ?c then Done _ _ else _] => destruct c
      end; reflexivity.
    + rewrite andb_false_r. reflexivity.
  - lock_unfold. cbn.
    repeat (rewrite ?andb_false_r;
            match goal with
            | |- context [if ?c then _ else _] => destruct c; cbn
            end);
      reflexivity.
  - lock_unfold. cbn. rewrite andb_false_r. eexists. reflexivity.
Qed.

(** The no-owner value of the [_WIN32] variant is its
    [MXUSER_INVALID_OWNER], 0xFFFFFFFF. *)
Example Win32_MXUSER_INVALID_OWNER `{CriticalSectionAPI} :
  @MXUSER_INVALID_OWNER Win32Mutex = 0xFFFFFFFF.
Proof. reflexivity. Qed.

(* ------------------------------------------------------------------ *)
(** ** Thread identities as pointers *)

(** X12. [MXUserGetNativeTID] loses nothing when the compile-time
    assertion of its body holds, that a thread identity is no wider than
    a pointer: it returns the identity unchanged, so two threads with
    different identities get different native TIDs. *)
Theorem MXUserGetNativeTID_injective `{NativeMutex}
    (sizeof_voidp : Z) (a b : MXThreadID) :
  sizeof_MXThreadID <= sizeof_voidp ->
  valid_MXThreadID a -> valid_MXThreadID b ->
  MXUserGetNativeTID sizeof_voidp a = a /\
  (MXUserGetNativeTID sizeof_voidp a = MXUserGetNativeTID sizeof_voidp b ->
   a = b).
Proof.
  unfold valid_MXThreadID, MXUserGetNativeTID. intros Hsize Ha Hb.
  assert (Hpow : 2 ^ (8 * sizeof_MXThreadID) <= 2 ^ (8 * sizeof_voidp))
    by (apply Z.pow_le_mono_r; lia).
  rewrite !Z.mod_small by lia. split; [reflexivity | auto].
Qed.

Lemma MXUserGetNativeTID_injective_witness :
  MXUserGetNativeTID 8 140737488355327 = 140737488355327.
Proof.
  refine (proj1 (@MXUserGetNativeTID_injective Scripted 8
                   140737488355327 5 _ _ _)).
  - simpl. lia.
  - unfold valid_MXThreadID. simpl. lia.
  - unfold valid_MXThreadID. simpl. lia.
Defined.

(* ------------------------------------------------------------------ *)
(** ** From initialisation to destruction *)

(** X13. Over a native mutex that reports no error, the whole life of a
    lock used [N] times deep by one thread, with
    [0 < N < MXUSER_MAX_REC_DEPTH], runs to completion in either build,
    and the native mutex sees one create, one acquisition (a try,
    followed by the blocking acquire if the try was busy), one release
    and one destroy, whatever [N] is.  The structure is left with count 0
    and no owner. *)
Theorem lock_lifecycle_balanced `{Build} `{NativeMutex}
    (self : MXThreadID) (N : nat) (w : World) :
  reports_no_error ->
  (0 < N)%nat -> Z.of_nat N < MXUSER_MAX_REC_DEPTH ->
  exists w' : World,
    lock_lifecycle self N w = Done tt w' /\
    referenceCount (lock w') = 0 /\
    nativeThreadID (lock w') = MXUSER_INVALID_OWNER /\
    calls w' =
      calls w ++
        [CallCreate; CallTryAcquire] ++
        (if fst (mutex_trylock self
                   (snd (mutex_init (nativeLock (lock w))))) =? 0
         then [] else [CallAcquire]) ++
        [CallRelease; CallDestroy].
Proof.
  assert (Hmax : MXUSER_MAX_REC_DEPTH = 16) by reflexivity.
  intros (Hinit & Htry & Hlock & Hunlock & Hdestroy) HN Hbound.
  destruct w as [[n rc owner] cs]. cbn [lock calls nativeLock].
  destruct N as [| k]; [lia |].
  unfold lock_lifecycle, MXRecLockInit, MXRecLockCreateInternal, native_call.
  unfold bind at 1 2. cbn [lock calls nativeLock].
  rewrite Hinit. simpl (0 =? 0). cbv zeta.
  unfold when at 1. unfold bind at 1. unfold modify at 1.
  unfold bind at 1. unfold modify at 1. unfold bind at 1. unfold ret at 1.
  unfold when. unfold MXRecLockSetNoOwner, set_referenceCount,
    set_nativeThreadID, set_nativeLock.
  cbn [lock calls nativeLock referenceCount nativeThreadID].
  set (n1 := snd (mutex_init n)).
  unfold bind at 1. rewrite acquire_times_S.
  rewrite MXRecLockAcquire_native_run by (left; reflexivity).
  cbv zeta. unfold finish_native_acquire. simpl (0 =? 0). cbv iota.
  rewrite (Hlock self (snd (mutex_trylock self n1))).
  simpl (0 =? 0). simpl (negb true). rewrite !andb_false_r.
  assert (Hrel : forall (c : bool) n2 cs2,
            exists w',
              match
                match acquire_times self k
                        (mkWorld (mkMXRecLock n2 1 self) cs2) with
                | Done cs0 w2 => Done (c :: cs0) w2
                | Fatal f w2 => Fatal f w2
                end
              with
              | Done _ w1 =>
                  (release_times self (S k) ;; MXRecLockDestroy) w1
              | Fatal f w1 => Fatal f w1
              end = Done tt w' /\
              referenceCount (lock w') = 0 /\
              nativeThreadID (lock w') = MXUSER_INVALID_OWNER /\
              calls w' = (cs2 ++ [CallRelease]) ++ [CallDestroy]).
  { intros c n2 cs2.
    rewrite acquire_times_reentrant by lia.
    replace (1 + Z.of_nat k) with (Z.of_nat (S k)) by lia.
    unfold bind at 1.
    rewrite release_times_all by (try lia; intros _; apply Hunlock).
    unfold MXRecLockDestroy, MXRecLockDestroyInternal, native_call, bind,
      when, ret.
    cbn [lock calls nativeLock]. rewrite Hdestroy.
    simpl (0 =? 0). rewrite andb_false_r.
    eexists. repeat split. }
  destruct (Htry self n1) as [Hgot | Hbusy].
  - rewrite Hgot. simpl (0 =? 0). cbv iota.
    destruct (Hrel false (snd (mutex_trylock self n1))
                ((cs ++ [CallCreate]) ++ [CallTryAcquire]))
      as (w' & Hrun & Hrc & Hown & Hcalls).
    exists w'. split; [exact Hrun |].
    split; [exact Hrc |]. split; [exact Hown |].
    rewrite Hcalls, <- !app_assoc. reflexivity.
  - rewrite Hbusy. change (EBUSY =? 0) with false. cbv iota.
    rewrite Z.eqb_refl. simpl (negb true). rewrite andb_false_r. cbv iota.
    destruct (Hrel true
                (snd (mutex_lock self (snd (mutex_trylock self n1))))
                ((cs ++ [CallCreate]) ++ [CallTryAcquire; CallAcquire]))
      as (w' & Hrun & Hrc & Hown & Hcalls).
    exists w'. split; [exact Hrun |].
    split; [exact Hrc |]. split; [exact Hown |].
    rewrite Hcalls, <- !app_assoc. reflexivity.
Qed.

Lemma Alternating_reports_no_error : @reports_no_error Alternating.
Proof.
  unfold reports_no_error. simpl. repeat split.
  intros _ k. destruct (Nat.even k); [left | right]; reflexivity.
Qed.

Lemma lock_lifecycle_balanced_witness :
  exists w' : @World Alternating,
    @lock_lifecycle DebugBuild Alternating 5 3
      (@mkWorld Alternating (@mkMXRecLock Alternating 0%nat 7 42) []) =
      Done tt w' /\
    referenceCount (lock w') = 0 /\
    nativeThreadID (lock w') = @MXUSER_INVALID_OWNER Alternating /\
    calls w' =
      [] ++ [CallCreate; CallTryAcquire] ++ [CallAcquire] ++
      [CallRelease; CallDestroy].
Proof.
  refine (@lock_lifecycle_balanced DebugBuild Alternating 5 3
            (@mkWorld Alternating (@mkMXRecLock Alternating 0%nat 7 42) [])
            Alternating_reports_no_error _ _).
  - lia.
  - reflexivity.
Defined.
